(** * layerzero-bridger: the Stargate bridge helper

    A shallow embedding of [stargate/stargate.py] and the properties its
    specification states about it.

    The program is sequential glue over a blockchain RPC client.  Python
    integers are [Z].  A Python call that may raise and that talks to the
    outside world is a function from the state of that world to a result
    (an exception or a value), the next state, and the list of
    interactions it performed.  Dictionaries are stdpp finite maps with
    string keys.  The [float] slippage is an IEEE-754 binary64 number,
    with the operations of the standard library's [SpecFloat]. *)

From Stdlib Require Import ZArith Lia Bool.
From Stdlib Require Import Floats.SpecFloat.
From stdpp Require Import base gmap strings list.

Local Open Scope Z_scope.

(** ** Python values *)

(** What appears in a transaction dictionary or as a positional argument of a
    contract function: integers, strings (addresses, hex payloads), lists. *)
#[warnings="-register-all"]
Inductive PyVal :=
| PInt (n : Z)
| PStr (s : string)
| PList (l : list PyVal).

(** [HexBytes] and private keys are byte strings. *)
Definition HexBytes := list Byte.byte.

(** Modelled from the spec: the exceptions [TransactionNotFound] and
    [TransactionFailed] are declared in [base/errors.py], which is not
    among the sources; each carries its message.  [PyError] is any other
    Python exception, by the name of its class (what a collaborator
    raises: a connection error, an invalid address, an overflow). *)
Inductive exn :=
| TransactionNotFound (msg : string)
| TransactionFailed (msg : string)
| PyError (cls : string).

Definition OverflowError := PyError "OverflowError".
Definition ValueError := PyError "ValueError".
Definition IndexError := PyError "IndexError".

Module TransactionStatus.
(** Modelled from the spec: [TransactionStatus] is declared in
    [network/network.py], which is not among the sources.  The spec lists
    the outcomes Success, Failed and NotFound.  The annotation
    [result: TransactionStatus] is not checked when the program runs, so
    [UNRECOGNIZED] stands for any other object a network hands back. *)
Inductive t :=
| NOT_FOUND
| SUCCESS
| FAILED
| UNRECOGNIZED (v : Z).

(** Python's [==] on the members of an enumeration. *)
Definition eqb (a b : t) : bool :=
  match a, b with
  | NOT_FOUND, NOT_FOUND | SUCCESS, SUCCESS | FAILED, FAILED => true
  | UNRECOGNIZED v, UNRECOGNIZED v' => Z.eqb v v'
  | _, _ => false
  end.
End TransactionStatus.

(** ** Python's [float]

    A binary64 number.  [int * float] converts the integer first, rounding
    to nearest even, and raises [OverflowError] when the integer is beyond
    the largest finite float; [int(x)] truncates toward zero and raises on
    an infinity or a NaN. *)
Module PyFloat.
Definition prec : Z := 53.
Definition emax : Z := 1024.

Definition of_int (n : Z) : exn + spec_float :=
  match binary_normalize prec emax n 0 false with
  | S754_infinity _ => inl OverflowError
  | x => inr x
  end.

Definition mul (x y : spec_float) : spec_float := SFmul prec emax x y.

Definition to_int (x : spec_float) : exn + Z :=
  match x with
  | S754_nan => inl ValueError
  | S754_infinity _ => inl OverflowError
  | S754_zero _ => inr 0
  | S754_finite s m e => inr (cond_Zopp s (Z.shiftl (Z.pos m) e))
  end.

(** [n * x] for an [int] n and a [float] x. *)
Definition int_mul (n : Z) (x : spec_float) : exn + spec_float :=
  match of_int n with
  | inl e => inl e
  | inr fn => inr (mul fn x)
  end.

(** [x < y] and [x <= y] on floats. *)
Definition ltb (x y : spec_float) : bool := SFltb x y.
Definition leb (x y : spec_float) : bool := SFleb x y.

(** The value m * 2^e scaled by 2^B: with B above the opposite of every
    exponent at hand, values of floats compare as integers. *)
Definition scaled (B m e : Z) : Z := m * 2 ^ (e + B).

Definition zero : spec_float := S754_zero false.
Definition one : spec_float := S754_finite false 4503599627370496 (-52).
End PyFloat.

(** ** Transactions, as terms

    ABI encoding and signing are black boxes of the network layer: a
    transaction is the contract call it encodes with the dictionary given
    to [build_transaction]; a signed transaction is a transaction with the
    key that signed it. *)
Record ContractCall := {
  fn_name : string;
  fn_args : list PyVal
}.

Record Transaction := {
  tx_to : string;
  tx_call : ContractCall;
  tx_params : gmap string PyVal
}.

Record SignedTransaction := {
  signed : Transaction;
  signer : HexBytes
}.

Definition rawTransaction (s : SignedTransaction) : SignedTransaction := s.

(** ** Interactions with the outside world *)

(** The pieces of a formatted log line. *)
Inductive Frag :=
| Lit (s : string)
| FInt (n : Z)
| FDict (d : gmap string PyVal)
| FHex (h : HexBytes).

Inductive Event :=
| EvGetBalance (address : string)
| EvGetApproveGasLimit
| EvGetCurrentGas
| EvGetNonce (address : string)
| EvGetTransactionGasParams
| EvGetTokenBalance (token address : string)
| EvGetTokenAllowance (token owner spender : string)
| EvQuoteLayerZeroFee (router : string) (args : list PyVal)
| EvRandomizedSwapGasLimit (network_name : string)
| EvApproveTokenUsage (key : HexBytes) (token spender : string) (amount : Z)
| EvSendRawTransaction (raw : SignedTransaction)
| EvWaitForTransaction (tx_hash : HexBytes)
| EvLogInfo (msg : list Frag).

(** The two calls that submit a transaction to the chain. *)
Definition is_state_changing (e : Event) : bool :=
  match e with
  | EvApproveTokenUsage _ _ _ _ | EvSendRawTransaction _ => true
  | _ => false
  end.

Definition transactions (evs : list Event) : list Event :=
  List.filter is_state_changing evs.

Definition is_log (e : Event) : bool :=
  match e with EvLogInfo _ => true | _ => false end.

(** The calls of the router's fee quote. *)
Definition is_quote (e : Event) : bool :=
  match e with EvQuoteLayerZeroFee _ _ => true | _ => false end.

(** ** The monad of the program *)

Section Effects.
Context {chain : Type}.

(** A call of a collaborator: result and next state of the world. *)
Definition rpc (A : Type) : Type := chain -> (exn + A) * chain.

(** A computation: result, next state, interactions performed. *)
Definition M (A : Type) : Type := chain -> (exn + A) * chain * list Event.

Definition ret {A} (a : A) : M A := fun c => (inr a, c, []).

Definition raise {A} (e : exn) : M A := fun c => (inl e, c, []).

Definition bind {A B} (m : M A) (k : A -> M B) : M B :=
  fun c =>
    match m c with
    | (inl e, c1, ev1) => (inl e, c1, ev1)
    | (inr a, c1, ev1) =>
        match k a c1 with
        | (r, c2, ev2) => (r, c2, ev1 ++ ev2)
        end
    end.

(** A collaborator's call, recorded whether it returns or raises. *)
Definition call {A} (ev : Event) (f : rpc A) : M A :=
  fun c => match f c with (r, c1) => (r, c1, [ev]) end.

(** A pure computation that may raise. *)
Definition lift {A} (r : exn + A) : M A :=
  fun c => (r, c, []).

Definition logger_info (msg : list Frag) : M unit :=
  fun c => (inr tt, c, [EvLogInfo msg]).
End Effects.

Arguments rpc : clear implicits.
Arguments M : clear implicits.

#[global] Instance M_ret {chain} : MRet (M chain) := @ret chain.
#[global] Instance M_bind {chain} : MBind (M chain) :=
  fun A B k m => bind m k.

(** ** The collaborators *)

Module EVMNetwork.
(** Modelled from the spec: [EVMNetwork] is declared in
    [network/network.py], which is not among the sources; its attributes
    and methods are the ones [stargate.py] uses, each method a call that
    may raise.  [quoteLayerZeroFee] and [send_raw_transaction] stand for
    the router contract binding and [w3.eth] of the network. *)
Record t {chain : Type} := {
  name : string;
  stargate_chain_id : Z;
  stargate_router_address : string;
  get_balance : string -> rpc chain Z;
  get_approve_gas_limit : rpc chain Z;
  get_current_gas : rpc chain Z;
  get_nonce : string -> rpc chain Z;
  get_transaction_gas_params : rpc chain (gmap string PyVal);
  get_token_balance : string -> string -> rpc chain Z;
  get_token_allowance : string -> string -> string -> rpc chain Z;
  approve_token_usage : HexBytes -> string -> string -> Z -> rpc chain HexBytes;
  wait_for_transaction : HexBytes -> rpc chain TransactionStatus.t;
  quoteLayerZeroFee : string -> list PyVal -> rpc chain (list Z);
  send_raw_transaction : SignedTransaction -> rpc chain HexBytes
}.
Arguments t : clear implicits.
End EVMNetwork.

Module Stablecoin.
(** Modelled from the spec: [Stablecoin] is declared in [utility], which is
    not among the sources.  The spec gives it a contract address, a
    symbol, a decimal precision and a pool identifier. *)
Record t := {
  contract_address : string;
  symbol : string;
  decimals : Z;
  stargate_pool_id : Z
}.
End Stablecoin.

Module LocalAccount.
(** [eth_account]'s account: an address and the key that signs for it. *)
Record t := {
  address : string;
  key : HexBytes
}.
End LocalAccount.

Module StargateConstants.
(** Modelled from the spec: [StargateConstants] is declared in
    [stargate/constants.py], which is not among the sources.  The spec
    calls the maximum randomized swap gas limit a network-specific
    constant; the randomized limit is drawn from the random source, which
    is part of the state of the world. *)
Record t {chain : Type} := {
  get_max_randomized_swap_gas_limit : string -> Z;
  get_randomized_swap_gas_limit : string -> rpc chain Z
}.
Arguments t : clear implicits.

End StargateConstants.

Module Web3.
(** [Web3.to_checksum_address] raises on a string that is no address. *)
Record t := {
  to_checksum_address : string -> exn + string
}.
End Web3.

(** ** [class StargateUtils] *)

Module StargateUtils.
Section Defs.
Context {chain : Type}.
Variable K : StargateConstants.t chain.
Variable W3 : Web3.t.

Definition estimate_layerzero_swap_fee
    (src_network dst_network : EVMNetwork.t chain) (dst_address : string) : M chain Z :=
  contract ← lift (Web3.to_checksum_address W3 (EVMNetwork.stargate_router_address src_network));
  let args := [PInt (EVMNetwork.stargate_chain_id dst_network);
               PInt 1;
               PStr dst_address;
               PStr "0x";
               PList [PInt 0; PInt 0; PStr "0x"]] in
  quote_data ← call (EvQuoteLayerZeroFee contract args)
                    (EVMNetwork.quoteLayerZeroFee src_network contract args);
  match quote_data with
  | fee :: _ => mret fee
  | [] => raise IndexError
  end.

Definition estimate_swap_gas_price (network : EVMNetwork.t chain) : M chain Z :=
  approve_gas_limit ← call EvGetApproveGasLimit (EVMNetwork.get_approve_gas_limit network);
  let max_overall_gas_limit :=
    StargateConstants.get_max_randomized_swap_gas_limit K (EVMNetwork.name network)
    + approve_gas_limit in
  current_gas ← call EvGetCurrentGas (EVMNetwork.get_current_gas network);
  let gas_price := max_overall_gas_limit * current_gas in
  mret gas_price.

Definition is_enough_native_token_balance_for_stargate_swap_fee
    (src_network dst_network : EVMNetwork.t chain) (address : string) : M chain bool :=
  account_balance ← call (EvGetBalance address) (EVMNetwork.get_balance src_network address);
  gas_price ← estimate_swap_gas_price src_network;
  layerzero_fee ← estimate_layerzero_swap_fee src_network dst_network address;
  let enough_native_token_balance := account_balance >? (gas_price + layerzero_fee) in
  mret enough_native_token_balance.
End Defs.
End StargateUtils.

(** ** [class StargateBridgeHelper] *)

Module StargateBridgeHelper.
(** The attributes [__init__] sets. *)
Record t {chain : Type} := {
  account : LocalAccount.t;
  src_network : EVMNetwork.t chain;
  dst_network : EVMNetwork.t chain;
  src_stablecoin : Stablecoin.t;
  dst_stablecoin : Stablecoin.t;
  amount : Z;
  slippage : spec_float
}.
Arguments t : clear implicits.

(** [amount - int(amount * slippage)], the local variable of
    [_send_swap_transaction]. *)
Definition amount_with_slippage (amount : Z) (slippage : spec_float) : exn + Z :=
  match PyFloat.int_mul amount slippage with
  | inl e => inl e
  | inr product =>
      match PyFloat.to_int product with
      | inl e => inl e
      | inr cut => inr (amount - cut)
      end
  end.

(** The specification's words for the same quantity: a - floor(a * s), the
    float s taken as the number it denotes, m * 2^e. *)
Definition floor_mul (a : Z) (s : spec_float) : Z :=
  match s with
  | S754_finite sign m e => Z.shiftl (a * cond_Zopp sign (Z.pos m)) e
  | _ => 0
  end.

Definition spec_amount_with_slippage (a : Z) (s : spec_float) : Z :=
  a - floor_mul a s.

(** [w3.eth.account.sign_transaction(tx, key)]. *)
Definition sign_transaction (tx : Transaction) (key : HexBytes) : SignedTransaction :=
  {| signed := tx; signer := key |}.

Section Defs.
Context {chain : Type}.
Variable K : StargateConstants.t chain.
Variable W3 : Web3.t.

Definition _check_tx_result (result : TransactionStatus.t) (name : string) : M chain unit :=
  if TransactionStatus.eqb result TransactionStatus.NOT_FOUND then
    raise (TransactionNotFound
             (name +:+ " transaction can't be found in the blockchain"
                   +:+ "for a log time. Consider changing fee settings"))
  else if TransactionStatus.eqb result TransactionStatus.FAILED then
    raise (TransactionFailed (name +:+ " transaction failed"))
  else if TransactionStatus.eqb result TransactionStatus.SUCCESS then
    logger_info [Lit (name +:+ " transaction succeed")]
  else mret tt.

(** The call [contract.functions.swap(...)] of [_send_swap_transaction]. *)
Definition swap_call (self : t chain) (amount_with_slippage : Z) : ContractCall :=
  let me := LocalAccount.address (account self) in
  {| fn_name := "swap";
     fn_args := [PInt (EVMNetwork.stargate_chain_id (dst_network self));
                 PInt (Stablecoin.stargate_pool_id (src_stablecoin self));
                 PInt (Stablecoin.stargate_pool_id (dst_stablecoin self));
                 PStr me;
                 PInt (amount self);
                 PInt amount_with_slippage;
                 PList [PInt 0; PInt 0; PStr "0x"];
                 PStr me;
                 PStr "0x"] |}.

(** The dictionary given to [build_transaction]: in a dictionary display a
    later entry replaces an earlier one of the same key, so the entries of
    [**gas_params] win over ['from'], ['value'] and ['gas'], and ['nonce']
    wins over them. *)
Definition swap_params (from : string) (value gas : Z) (gas_params : gmap string PyVal)
    (nonce : Z) : gmap string PyVal :=
  <["nonce" := PInt nonce]>
    (gas_params ∪
       <["gas" := PInt gas]>
         (<["value" := PInt value]>
            (<["from" := PStr from]> ∅))).

Definition _send_swap_transaction (self : t chain) : M chain HexBytes :=
  let src := src_network self in
  let me := LocalAccount.address (account self) in
  contract ← lift (Web3.to_checksum_address W3 (EVMNetwork.stargate_router_address src));
  layerzero_fee ← StargateUtils.estimate_layerzero_swap_fee W3 src (dst_network self) me;
  nonce ← call (EvGetNonce me) (EVMNetwork.get_nonce src me);
  gas_params ← call EvGetTransactionGasParams (EVMNetwork.get_transaction_gas_params src);
  amount_with_slippage ← lift (amount_with_slippage (amount self) (slippage self));
  logger_info [Lit "Estimated fees. LayerZero fee: "; FInt layerzero_fee;
               Lit ". Gas price: "; FDict gas_params];;
  let swap := swap_call self amount_with_slippage in
  gas ← call (EvRandomizedSwapGasLimit (EVMNetwork.name src))
             (StargateConstants.get_randomized_swap_gas_limit K (EVMNetwork.name src));
  let tx :=
    {| tx_to := contract;
       tx_call := swap;
       tx_params := swap_params me layerzero_fee gas gas_params nonce |} in
  let signed_tx := sign_transaction tx (LocalAccount.key (account self)) in
  tx_hash ← call (EvSendRawTransaction (rawTransaction signed_tx))
                 (EVMNetwork.send_raw_transaction src (rawTransaction signed_tx));
  logger_info [Lit "Stargate swap transaction signed and sent. Hash: "; FHex tx_hash];;
  mret tx_hash.

Definition _is_bridge_possible (self : t chain) : M chain bool :=
  enough ← StargateUtils.is_enough_native_token_balance_for_stargate_swap_fee
             K W3 (src_network self) (dst_network self)
             (LocalAccount.address (account self));
  if negb enough then mret false else
  stablecoin_balance ←
    call (EvGetTokenBalance (Stablecoin.contract_address (src_stablecoin self))
                            (LocalAccount.address (account self)))
         (EVMNetwork.get_token_balance (src_network self)
            (Stablecoin.contract_address (src_stablecoin self))
            (LocalAccount.address (account self)));
  if stablecoin_balance <? amount self then mret false else
  mret true.

Definition _approve_stablecoin_usage (self : t chain) (amount : Z) : M chain unit :=
  let src := src_network self in
  let token := Stablecoin.contract_address (src_stablecoin self) in
  let me := LocalAccount.address (account self) in
  let router := EVMNetwork.stargate_router_address src in
  allowance ← call (EvGetTokenAllowance token me router)
                   (EVMNetwork.get_token_allowance src token me router);
  if allowance >=? amount then mret tt else
  tx_hash ← call (EvApproveTokenUsage (LocalAccount.key (account self)) token router amount)
                 (EVMNetwork.approve_token_usage src (LocalAccount.key (account self))
                    token router amount);
  result ← call (EvWaitForTransaction tx_hash) (EVMNetwork.wait_for_transaction src tx_hash);
  _check_tx_result result ("Approve " +:+ Stablecoin.symbol (src_stablecoin self) +:+ " usage").

(** Python's [None] is [None]; [return False] is [Some false]. *)
Definition make_bridge (self : t chain) : M chain (option bool) :=
  possible ← _is_bridge_possible self;
  if negb possible then mret (Some false) else
  _approve_stablecoin_usage self (amount self);;
  tx_hash ← _send_swap_transaction self;
  result ← call (EvWaitForTransaction tx_hash)
                (EVMNetwork.wait_for_transaction (src_network self) tx_hash);
  _check_tx_result result "Stargate swap";;
  mret None.
End Defs.
End StargateBridgeHelper.

(** ** A mock network

    A small concrete world: one account, one stablecoin, a node that
    answers or not.  Approving sets the allowance; every submitted
    transaction advances the nonce; polling reports [status]. *)

Module Mock.
Record chain := {
  online : bool;
  balance : Z;
  current_gas : Z;
  relay_fee : Z;
  stable_balance : Z;
  allowance : Z;
  status : TransactionStatus.t;
  nonce : Z
}.

Definition ConnectionError := PyError "ConnectionError".

Definition answer {A} (f : chain -> A) : rpc chain A :=
  fun c => (if online c then inr (f c) else inl ConnectionError, c).

Definition approved (amount : Z) (c : chain) : chain :=
  {| online := online c; balance := balance c; current_gas := current_gas c;
     relay_fee := relay_fee c; stable_balance := stable_balance c;
     allowance := amount; status := status c; nonce := nonce c + 1 |}.

Definition sent (c : chain) : chain :=
  {| online := online c; balance := balance c; current_gas := current_gas c;
     relay_fee := relay_fee c; stable_balance := stable_balance c;
     allowance := allowance c; status := status c; nonce := nonce c + 1 |}.

Definition approve_hash : HexBytes := [Byte.x0a].
Definition swap_hash : HexBytes := [Byte.x0b].

Definition network (name : string) (chain_id : Z) : EVMNetwork.t chain :=
  {| EVMNetwork.name := name;
     EVMNetwork.stargate_chain_id := chain_id;
     EVMNetwork.stargate_router_address := "0xRouter";
     EVMNetwork.get_balance := fun _ => answer balance;
     EVMNetwork.get_approve_gas_limit := answer (fun _ => 2);
     EVMNetwork.get_current_gas := answer current_gas;
     EVMNetwork.get_nonce := fun _ => answer nonce;
     EVMNetwork.get_transaction_gas_params :=
       answer (fun c => {["gasPrice" := PInt (current_gas c)]});
     EVMNetwork.get_token_balance := fun _ _ => answer stable_balance;
     EVMNetwork.get_token_allowance := fun _ _ _ => answer allowance;
     EVMNetwork.approve_token_usage :=
       fun _ _ _ amount c =>
         if online c then (inr approve_hash, approved amount c)
         else (inl ConnectionError, c);
     EVMNetwork.wait_for_transaction := fun _ => answer status;
     EVMNetwork.quoteLayerZeroFee := fun _ _ => answer (fun c => [relay_fee c; 0]);
     EVMNetwork.send_raw_transaction :=
       fun _ c =>
         if online c then (inr swap_hash, sent c)
         else (inl ConnectionError, c) |}.

Definition constants : StargateConstants.t chain :=
  {| StargateConstants.get_max_randomized_swap_gas_limit := fun _ => 8;
     StargateConstants.get_randomized_swap_gas_limit := fun _ => answer (fun _ => 7) |}.

Definition web3 : Web3.t :=
  {| Web3.to_checksum_address := fun s => inr s |}.

Definition src := network "Source" 101.
Definition dst := network "Destination" 102.

Definition alice : LocalAccount.t :=
  {| LocalAccount.address := "0xA11ce"; LocalAccount.key := [Byte.x2a] |}.

Definition usdc : Stablecoin.t :=
  {| Stablecoin.contract_address := "0xUSDC"; Stablecoin.symbol := "USDC";
     Stablecoin.decimals := 6; Stablecoin.stargate_pool_id := 1 |}.

Definition usdt : Stablecoin.t :=
  {| Stablecoin.contract_address := "0xUSDT"; Stablecoin.symbol := "USDT";
     Stablecoin.decimals := 6; Stablecoin.stargate_pool_id := 2 |}.

(** The binary64 numbers that Python reads for 0.5, 0.7 and 0.29:
    0x1.0p-1, 0x1.6666666666666p-1 and 0x1.28f5c28f5c28fp-2. *)
Definition half : spec_float := S754_finite false 4503599627370496 (-53).
Definition seven_tenths : spec_float := S754_finite false 6305039478318694 (-53).
Definition twenty_nine_hundredths : spec_float :=
  S754_finite false 5224175567749775 (-54).

Definition helper (amount : Z) : StargateBridgeHelper.t chain :=
  {| StargateBridgeHelper.account := alice;
     StargateBridgeHelper.src_network := src;
     StargateBridgeHelper.dst_network := dst;
     StargateBridgeHelper.src_stablecoin := usdc;
     StargateBridgeHelper.dst_stablecoin := usdt;
     StargateBridgeHelper.amount := amount;
     StargateBridgeHelper.slippage := half |}.

(** The same request with another slippage. *)
Definition helper_with_slippage (amount : Z) (slippage : spec_float)
    : StargateBridgeHelper.t chain :=
  {| StargateBridgeHelper.account := alice;
     StargateBridgeHelper.src_network := src;
     StargateBridgeHelper.dst_network := dst;
     StargateBridgeHelper.src_stablecoin := usdc;
     StargateBridgeHelper.dst_stablecoin := usdt;
     StargateBridgeHelper.amount := amount;
     StargateBridgeHelper.slippage := slippage |}.

(** The network n with a fixed dictionary for its gas parameters. *)
Definition with_gas_params (gas_params : gmap string PyVal) (n : EVMNetwork.t chain)
    : EVMNetwork.t chain :=
  {| EVMNetwork.name := EVMNetwork.name n;
     EVMNetwork.stargate_chain_id := EVMNetwork.stargate_chain_id n;
     EVMNetwork.stargate_router_address := EVMNetwork.stargate_router_address n;
     EVMNetwork.get_balance := EVMNetwork.get_balance n;
     EVMNetwork.get_approve_gas_limit := EVMNetwork.get_approve_gas_limit n;
     EVMNetwork.get_current_gas := EVMNetwork.get_current_gas n;
     EVMNetwork.get_nonce := EVMNetwork.get_nonce n;
     EVMNetwork.get_transaction_gas_params := answer (fun _ => gas_params);
     EVMNetwork.get_token_balance := EVMNetwork.get_token_balance n;
     EVMNetwork.get_token_allowance := EVMNetwork.get_token_allowance n;
     EVMNetwork.approve_token_usage := EVMNetwork.approve_token_usage n;
     EVMNetwork.wait_for_transaction := EVMNetwork.wait_for_transaction n;
     EVMNetwork.quoteLayerZeroFee := EVMNetwork.quoteLayerZeroFee n;
     EVMNetwork.send_raw_transaction := EVMNetwork.send_raw_transaction n |}.

(** The source network with gas parameters that name the gas limit and the
    value of the transaction themselves:
    [{'gasPrice': 1, 'value': 0, 'gas': 1000}]. *)
Definition src_naming_gas_and_value : EVMNetwork.t chain :=
  with_gas_params
    (<["gas" := PInt 1000]> (<["value" := PInt 0]> {["gasPrice" := PInt 1]})) src.

(** The same request from another source network. *)
Definition helper_on (src_network : EVMNetwork.t chain) (amount : Z)
    : StargateBridgeHelper.t chain :=
  {| StargateBridgeHelper.account := alice;
     StargateBridgeHelper.src_network := src_network;
     StargateBridgeHelper.dst_network := dst;
     StargateBridgeHelper.src_stablecoin := usdc;
     StargateBridgeHelper.dst_stablecoin := usdt;
     StargateBridgeHelper.amount := amount;
     StargateBridgeHelper.slippage := half |}.

(** balance 100, gas cost (8 + 2) * 1 = 10, relay fee 5, stablecoin
    balance 50, allowance 50. *)
Definition world (st : TransactionStatus.t) : chain :=
  {| online := true; balance := 100; current_gas := 1; relay_fee := 5;
     stable_balance := 50; allowance := 50; status := st; nonce := 0 |}.

Definition with_allowance (a : Z) (c : chain) : chain :=
  {| online := online c; balance := balance c; current_gas := current_gas c;
     relay_fee := relay_fee c; stable_balance := stable_balance c;
     allowance := a; status := status c; nonce := nonce c |}.

Definition with_balance (b : Z) (c : chain) : chain :=
  {| online := online c; balance := b; current_gas := current_gas c;
     relay_fee := relay_fee c; stable_balance := stable_balance c;
     allowance := allowance c; status := status c; nonce := nonce c |}.

Definition with_stable_balance (b : Z) (c : chain) : chain :=
  {| online := online c; balance := balance c; current_gas := current_gas c;
     relay_fee := relay_fee c; stable_balance := b;
     allowance := allowance c; status := status c; nonce := nonce c |}.

Definition offline (c : chain) : chain :=
  {| online := false; balance := balance c; current_gas := current_gas c;
     relay_fee := relay_fee c; stable_balance := stable_balance c;
     allowance := allowance c; status := status c; nonce := nonce c |}.
End Mock.

(** * Properties *)

(** ** How computations run *)

Section Run.
Context {chain : Type}.
Implicit Types c : chain.

Lemma run_bind_inr {A B} (m : M chain A) (k : A -> M chain B) c a c1 ev1 :
  m c = (inr a, c1, ev1) ->
  (m ≫= k) c = (let '(r, c2, ev2) := k a c1 in (r, c2, ev1 ++ ev2)).
Proof. intros H. unfold mbind, M_bind, bind. now rewrite H. Qed.

Lemma run_bind_inl {A B} (m : M chain A) (k : A -> M chain B) c e c1 ev1 :
  m c = (inl e, c1, ev1) ->
  (m ≫= k) c = (inl e, c1, ev1).
Proof. intros H. unfold mbind, M_bind, bind. now rewrite H. Qed.

Lemma run_call_inr {A} ev (f : rpc chain A) c r c1 :
  f c = (r, c1) -> call ev f c = (r, c1, [ev]).
Proof. intros H. unfold call. now rewrite H. Qed.

(** A computation that returns ran its first part to a normal end. *)
Lemma bind_inr_inv {A B} (m : M chain A) (k : A -> M chain B) c b c2 evs :
  (m ≫= k) c = (inr b, c2, evs) ->
  exists a c1 ev1 ev2,
    m c = (inr a, c1, ev1) /\ k a c1 = (inr b, c2, ev2) /\ evs = ev1 ++ ev2.
Proof.
  unfold mbind, M_bind, bind.
  destruct (m c) as [[[e|a] c1] ev1]; [discriminate|].
  destruct (k a c1) as [[r c2'] ev2] eqn:Hk.
  intros [= -> -> <-]. now exists a, c1, ev1, ev2.
Qed.

(** A computation that raises does so in its first part or in the rest. *)
Lemma bind_inl_inv {A B} (m : M chain A) (k : A -> M chain B) c e c2 evs :
  (m ≫= k) c = (inl e, c2, evs) ->
  m c = (inl e, c2, evs) \/
  exists a c1 ev1 ev2,
    m c = (inr a, c1, ev1) /\ k a c1 = (inl e, c2, ev2) /\ evs = ev1 ++ ev2.
Proof.
  unfold mbind, M_bind, bind.
  destruct (m c) as [[[e'|a] c1] ev1].
  - intros [= -> -> <-]. now left.
  - destruct (k a c1) as [[r c2'] ev2] eqn:Hk.
    intros [= -> -> <-]. right. now exists a, c1, ev1, ev2.
Qed.

Lemma call_inv {A} ev (f : rpc chain A) c r c1 evs :
  call ev f c = (r, c1, evs) -> f c = (r, c1) /\ evs = [ev].
Proof.
  unfold call. destruct (f c) as [r' c']. now intros [= -> -> <-].
Qed.

Lemma transactions_app (ev1 ev2 : list Event) :
  transactions (ev1 ++ ev2) = transactions ev1 ++ transactions ev2.
Proof. apply List.filter_app. Qed.
End Run.

(** ** [StargateUtils] *)

Section UtilsFacts.
Context {chain : Type}.
Variable K : StargateConstants.t chain.
Variable W3 : Web3.t.
Implicit Types (c : chain) (network src dst : EVMNetwork.t chain).

Lemma estimate_swap_gas_price_run network c approve_gas_limit c1 current_gas c2 :
  EVMNetwork.get_approve_gas_limit network c = (inr approve_gas_limit, c1) ->
  EVMNetwork.get_current_gas network c1 = (inr current_gas, c2) ->
  StargateUtils.estimate_swap_gas_price K network c =
    (inr ((StargateConstants.get_max_randomized_swap_gas_limit K (EVMNetwork.name network)
           + approve_gas_limit) * current_gas),
     c2, [EvGetApproveGasLimit; EvGetCurrentGas]).
Proof.
  intros H1 H2. unfold StargateUtils.estimate_swap_gas_price.
  rewrite (run_bind_inr _ _ _ _ _ _ (run_call_inr _ _ _ _ _ H1)).
  rewrite (run_bind_inr _ _ _ _ _ _ (run_call_inr _ _ _ _ _ H2)).
  reflexivity.
Qed.


Lemma native_check_run src dst address c balance c1 gas_cost c2 ev2 relay_fee c3 ev3 :
  EVMNetwork.get_balance src address c = (inr balance, c1) ->
  StargateUtils.estimate_swap_gas_price K src c1 = (inr gas_cost, c2, ev2) ->
  StargateUtils.estimate_layerzero_swap_fee W3 src dst address c2 = (inr relay_fee, c3, ev3) ->
  StargateUtils.is_enough_native_token_balance_for_stargate_swap_fee K W3 src dst address c =
    (inr (balance >? gas_cost + relay_fee), c3, EvGetBalance address :: ev2 ++ ev3).
Proof.
  intros H1 H2 H3.
  unfold StargateUtils.is_enough_native_token_balance_for_stargate_swap_fee.
  rewrite (run_bind_inr _ _ _ _ _ _ (run_call_inr _ _ _ _ _ H1)).
  rewrite (run_bind_inr _ _ _ _ _ _ H2).
  rewrite (run_bind_inr _ _ _ _ _ _ H3).
  cbn. now rewrite app_nil_r.
Qed.

Lemma native_check_inv src dst address c b c3 evs :
  StargateUtils.is_enough_native_token_balance_for_stargate_swap_fee K W3 src dst address c =
    (inr b, c3, evs) ->
  exists balance c1 gas_cost c2 ev2 relay_fee ev3,
    EVMNetwork.get_balance src address c = (inr balance, c1) /\
    StargateUtils.estimate_swap_gas_price K src c1 = (inr gas_cost, c2, ev2) /\
    StargateUtils.estimate_layerzero_swap_fee W3 src dst address c2 = (inr relay_fee, c3, ev3) /\
    b = (balance >? gas_cost + relay_fee) /\
    evs = EvGetBalance address :: ev2 ++ ev3.
Proof.
  unfold StargateUtils.is_enough_native_token_balance_for_stargate_swap_fee. intros H.
  apply bind_inr_inv in H as (bal & c1 & ev1 & eva & H1 & H & ->).
  apply call_inv in H1 as [H1 ->].
  apply bind_inr_inv in H as (g & c2 & ev2 & evb & H2 & H & ->).
  apply bind_inr_inv in H as (f & c3' & ev3 & evc & H3 & H & ->).
  injection H as <- <- <-.
  exists bal, c1, g, c2, ev2, f, ev3. rewrite app_nil_r. auto.
Qed.

(** C3: the native-balance check answers false whenever the balance is at
    most the estimated gas cost plus the relay fee, equality included,
    and true otherwise. *)
Theorem native_balance_check_threshold
    src dst address c balance c1 gas_cost c2 ev2 relay_fee c3 ev3 :
  EVMNetwork.get_balance src address c = (inr balance, c1) ->
  StargateUtils.estimate_swap_gas_price K src c1 = (inr gas_cost, c2, ev2) ->
  StargateUtils.estimate_layerzero_swap_fee W3 src dst address c2 = (inr relay_fee, c3, ev3) ->
  exists b,
    StargateUtils.is_enough_native_token_balance_for_stargate_swap_fee K W3 src dst address c =
      (inr b, c3, EvGetBalance address :: ev2 ++ ev3) /\
    (balance <= gas_cost + relay_fee -> b = false) /\
    (balance = gas_cost + relay_fee -> b = false) /\
    (gas_cost + relay_fee < balance -> b = true).
Proof.
  intros H1 H2 H3. exists (balance >? gas_cost + relay_fee).
  split; [eapply native_check_run; eassumption|].
  repeat split; intros; lia.
Qed.

Lemma native_check_raise_inv src dst address c e c' evs :
  StargateUtils.is_enough_native_token_balance_for_stargate_swap_fee K W3 src dst address c =
    (inl e, c', evs) ->
  (EVMNetwork.get_balance src address c = (inl e, c') /\ evs = [EvGetBalance address]) \/
  (exists balance c1 ev2,
      EVMNetwork.get_balance src address c = (inr balance, c1) /\
      StargateUtils.estimate_swap_gas_price K src c1 = (inl e, c', ev2) /\
      evs = EvGetBalance address :: ev2) \/
  (exists balance c1 gas_cost c2 ev2 ev3,
      EVMNetwork.get_balance src address c = (inr balance, c1) /\
      StargateUtils.estimate_swap_gas_price K src c1 = (inr gas_cost, c2, ev2) /\
      StargateUtils.estimate_layerzero_swap_fee W3 src dst address c2 = (inl e, c', ev3) /\
      evs = EvGetBalance address :: ev2 ++ ev3).
Proof.
  unfold StargateUtils.is_enough_native_token_balance_for_stargate_swap_fee. intros H.
  apply bind_inl_inv in H as [H | (bal & c1 & ev1 & eva & H1 & H & ->)].
  { apply call_inv in H as [H ->]. now left. }
  apply call_inv in H1 as [H1 ->]. right.
  apply bind_inl_inv in H as [H | (g & c2 & ev2 & evb & H2 & H & ->)].
  { left. now exists bal, c1, eva. }
  right.
  apply bind_inl_inv in H as [H | (f & c3 & ev3 & evc & H3 & H & ->)].
  { now exists bal, c1, g, c2, ev2, evb. }
  discriminate H.
Qed.

Lemma native_check_raise_run src dst address c e c' evs :
  (EVMNetwork.get_balance src address c = (inl e, c') /\ evs = [EvGetBalance address]) \/
  (exists balance c1 ev2,
      EVMNetwork.get_balance src address c = (inr balance, c1) /\
      StargateUtils.estimate_swap_gas_price K src c1 = (inl e, c', ev2) /\
      evs = EvGetBalance address :: ev2) \/
  (exists balance c1 gas_cost c2 ev2 ev3,
      EVMNetwork.get_balance src address c = (inr balance, c1) /\
      StargateUtils.estimate_swap_gas_price K src c1 = (inr gas_cost, c2, ev2) /\
      StargateUtils.estimate_layerzero_swap_fee W3 src dst address c2 = (inl e, c', ev3) /\
      evs = EvGetBalance address :: ev2 ++ ev3) ->
  StargateUtils.is_enough_native_token_balance_for_stargate_swap_fee K W3 src dst address c =
    (inl e, c', evs).
Proof.
  unfold StargateUtils.is_enough_native_token_balance_for_stargate_swap_fee.
  intros [[H1 ->] | [(bal & c1 & ev2 & H1 & H2 & ->) |
                     (bal & c1 & g & c2 & ev2 & ev3 & H1 & H2 & H3 & ->)]].
  - now rewrite (run_bind_inl _ _ _ _ _ _ (run_call_inr _ _ _ _ _ H1)).
  - rewrite (run_bind_inr _ _ _ _ _ _ (run_call_inr _ _ _ _ _ H1)).
    now rewrite (run_bind_inl _ _ _ _ _ _ H2).
  - rewrite (run_bind_inr _ _ _ _ _ _ (run_call_inr _ _ _ _ _ H1)).
    rewrite (run_bind_inr _ _ _ _ _ _ H2).
    now rewrite (run_bind_inl _ _ _ _ _ _ H3).
Qed.

(** C6, as the code has it: the native-balance check handles no
    exception.  It raises exactly when one of its queries (balance
    lookup, gas estimation, fee quote) raises, with that query's
    exception, and it returns a boolean exactly when all three return,
    the boolean being balance > gas cost + relay fee. *)
Theorem native_balance_check_propagates src dst address c :
  (forall e c' evs,
      StargateUtils.is_enough_native_token_balance_for_stargate_swap_fee K W3 src dst address c =
        (inl e, c', evs) <->
      (EVMNetwork.get_balance src address c = (inl e, c') /\ evs = [EvGetBalance address]) \/
      (exists balance c1 ev2,
          EVMNetwork.get_balance src address c = (inr balance, c1) /\
          StargateUtils.estimate_swap_gas_price K src c1 = (inl e, c', ev2) /\
          evs = EvGetBalance address :: ev2) \/
      (exists balance c1 gas_cost c2 ev2 ev3,
          EVMNetwork.get_balance src address c = (inr balance, c1) /\
          StargateUtils.estimate_swap_gas_price K src c1 = (inr gas_cost, c2, ev2) /\
          StargateUtils.estimate_layerzero_swap_fee W3 src dst address c2 = (inl e, c', ev3) /\
          evs = EvGetBalance address :: ev2 ++ ev3)) /\
  (forall b c' evs,
      StargateUtils.is_enough_native_token_balance_for_stargate_swap_fee K W3 src dst address c =
        (inr b, c', evs) <->
      exists balance c1 gas_cost c2 ev2 relay_fee ev3,
        EVMNetwork.get_balance src address c = (inr balance, c1) /\
        StargateUtils.estimate_swap_gas_price K src c1 = (inr gas_cost, c2, ev2) /\
        StargateUtils.estimate_layerzero_swap_fee W3 src dst address c2 = (inr relay_fee, c', ev3) /\
        b = (balance >? gas_cost + relay_fee) /\
        evs = EvGetBalance address :: ev2 ++ ev3).
Proof.
  split.
  - intros e c' evs. split; [apply native_check_raise_inv | apply native_check_raise_run].
  - intros b c' evs. split; [apply native_check_inv|].
    intros (bal & c1 & g & c2 & ev2 & f & ev3 & H1 & H2 & H3 & -> & ->).
    eapply native_check_run; eassumption.
Qed.
End UtilsFacts.

(** C3 on the mock network: balance 15 against gas cost 10 and relay fee
    5 is refused. *)
Lemma native_balance_check_threshold_witness :
  exists b,
    StargateUtils.is_enough_native_token_balance_for_stargate_swap_fee
      Mock.constants Mock.web3 Mock.src Mock.dst "0xA11ce"
      (Mock.with_balance 15 (Mock.world TransactionStatus.SUCCESS)) =
      (inr b, Mock.with_balance 15 (Mock.world TransactionStatus.SUCCESS),
       EvGetBalance "0xA11ce" ::
       [EvGetApproveGasLimit; EvGetCurrentGas] ++
       [EvQuoteLayerZeroFee "0xRouter"
          [PInt 102; PInt 1; PStr "0xA11ce"; PStr "0x";
           PList [PInt 0; PInt 0; PStr "0x"]]]) /\
    (15 <= 10 + 5 -> b = false) /\
    (15 = 10 + 5 -> b = false) /\
    (10 + 5 < 15 -> b = true).
Proof.
  eapply (native_balance_check_threshold Mock.constants Mock.web3 Mock.src Mock.dst
            "0xA11ce" (Mock.with_balance 15 (Mock.world TransactionStatus.SUCCESS))
            15 _ 10 _ _ 5); reflexivity.
Defined.

(** C6 fails on the code: with a node that does not answer, the balance
    lookup raises and the check raises with it instead of returning
    false. *)
Lemma native_balance_check_raises :
  EVMNetwork.get_balance Mock.src "0xA11ce"
    (Mock.offline (Mock.world TransactionStatus.SUCCESS)) =
    (inl Mock.ConnectionError, Mock.offline (Mock.world TransactionStatus.SUCCESS)) /\
  StargateUtils.is_enough_native_token_balance_for_stargate_swap_fee
    Mock.constants Mock.web3 Mock.src Mock.dst "0xA11ce"
    (Mock.offline (Mock.world TransactionStatus.SUCCESS)) =
    (inl Mock.ConnectionError, Mock.offline (Mock.world TransactionStatus.SUCCESS),
     [EvGetBalance "0xA11ce"]) /\
  ~ (exists c' evs,
        StargateUtils.is_enough_native_token_balance_for_stargate_swap_fee
          Mock.constants Mock.web3 Mock.src Mock.dst "0xA11ce"
          (Mock.offline (Mock.world TransactionStatus.SUCCESS)) = (inr false, c', evs)).
Proof.
  split; [reflexivity|]. split; [reflexivity|].
  intros (c' & evs & H). discriminate H.
Qed.

Lemma native_balance_check_propagates_witness :
  StargateUtils.is_enough_native_token_balance_for_stargate_swap_fee
    Mock.constants Mock.web3 Mock.src Mock.dst "0xA11ce"
    (Mock.offline (Mock.world TransactionStatus.SUCCESS)) =
    (inl Mock.ConnectionError, Mock.offline (Mock.world TransactionStatus.SUCCESS),
     [EvGetBalance "0xA11ce"]).
Proof.
  apply (proj1 (native_balance_check_propagates Mock.constants Mock.web3 Mock.src Mock.dst
                  "0xA11ce" (Mock.offline (Mock.world TransactionStatus.SUCCESS)))).
  left. split; reflexivity.
Defined.

(** ** [StargateBridgeHelper] *)

(** Unfold the monad down to the collaborators' calls. *)
Ltac run_monad :=
  unfold mbind, M_bind, bind, call, lift, logger_info, mret, M_ret, ret, raise in *.

Section BridgeFacts.
Context {chain : Type}.
Variable K : StargateConstants.t chain.
Variable W3 : Web3.t.
Implicit Types (c : chain) (self : StargateBridgeHelper.t chain).

Abbreviation src_of self := (StargateBridgeHelper.src_network self).
Abbreviation token_of self :=
  (Stablecoin.contract_address (StargateBridgeHelper.src_stablecoin self)).
Abbreviation me_of self := (LocalAccount.address (StargateBridgeHelper.account self)).
Abbreviation key_of self := (LocalAccount.key (StargateBridgeHelper.account self)).
Abbreviation router_of self :=
  (EVMNetwork.stargate_router_address (StargateBridgeHelper.src_network self)).
Abbreviation approve_name self :=
  ("Approve " +:+ Stablecoin.symbol (StargateBridgeHelper.src_stablecoin self) +:+ " usage").

Lemma check_tx_result_run (result : TransactionStatus.t) (name : string) c :
  StargateBridgeHelper._check_tx_result result name c =
    match result with
    | TransactionStatus.NOT_FOUND =>
        (inl (TransactionNotFound
                (name +:+ " transaction can't be found in the blockchain"
                      +:+ "for a log time. Consider changing fee settings")), c, [])
    | TransactionStatus.FAILED =>
        (inl (TransactionFailed (name +:+ " transaction failed")), c, [])
    | TransactionStatus.SUCCESS =>
        (inr tt, c, [EvLogInfo [Lit (name +:+ " transaction succeed")]])
    | TransactionStatus.UNRECOGNIZED _ => (inr tt, c, [])
    end.
Proof. destruct result; reflexivity. Qed.

Lemma check_tx_result_no_tx (result : TransactionStatus.t) (name : string) c r c' evs :
  StargateBridgeHelper._check_tx_result result name c = (r, c', evs) ->
  c' = c /\ transactions evs = [].
Proof.
  rewrite check_tx_result_run. destruct result; intros [= <- <- <-]; auto.
Qed.

(** The approval step when the allowance is short, call by call. *)
Lemma approve_run_short self amount c allowance c1 :
  EVMNetwork.get_token_allowance (src_of self) (token_of self) (me_of self) (router_of self) c
    = (inr allowance, c1) ->
  allowance < amount ->
  StargateBridgeHelper._approve_stablecoin_usage self amount c =
    match EVMNetwork.approve_token_usage (src_of self) (key_of self) (token_of self)
            (router_of self) amount c1 with
    | (inl e, c2) =>
        (inl e, c2,
         [EvGetTokenAllowance (token_of self) (me_of self) (router_of self);
          EvApproveTokenUsage (key_of self) (token_of self) (router_of self) amount])
    | (inr tx_hash, c2) =>
        match EVMNetwork.wait_for_transaction (src_of self) tx_hash c2 with
        | (inl e, c3) =>
            (inl e, c3,
             [EvGetTokenAllowance (token_of self) (me_of self) (router_of self);
              EvApproveTokenUsage (key_of self) (token_of self) (router_of self) amount;
              EvWaitForTransaction tx_hash])
        | (inr result, c3) =>
            let '(r, c4, ev) :=
              StargateBridgeHelper._check_tx_result result (approve_name self) c3 in
            (r, c4,
             [EvGetTokenAllowance (token_of self) (me_of self) (router_of self);
              EvApproveTokenUsage (key_of self) (token_of self) (router_of self) amount;
              EvWaitForTransaction tx_hash] ++ ev)
        end
    end.
Proof.
  intros Hal Hlt. unfold StargateBridgeHelper._approve_stablecoin_usage.
  rewrite (run_bind_inr _ _ _ _ _ _ (run_call_inr _ _ _ _ _ Hal)).
  replace (allowance >=? amount) with false by lia.
  destruct (EVMNetwork.approve_token_usage _ _ _ _ _ _) as [[e|tx_hash] c2] eqn:Hap.
  - now rewrite (run_bind_inl _ _ _ _ _ _ (run_call_inr _ _ _ _ _ Hap)).
  - rewrite (run_bind_inr _ _ _ _ _ _ (run_call_inr _ _ _ _ _ Hap)).
    destruct (EVMNetwork.wait_for_transaction _ _ _) as [[e|result] c3] eqn:Hw.
    + now rewrite (run_bind_inl _ _ _ _ _ _ (run_call_inr _ _ _ _ _ Hw)).
    + rewrite (run_bind_inr _ _ _ _ _ _ (run_call_inr _ _ _ _ _ Hw)).
      now destruct (StargateBridgeHelper._check_tx_result _ _ _) as [[r c4] ev].
Qed.

Lemma approve_run_enough self amount c allowance c1 :
  EVMNetwork.get_token_allowance (src_of self) (token_of self) (me_of self) (router_of self) c
    = (inr allowance, c1) ->
  amount <= allowance ->
  StargateBridgeHelper._approve_stablecoin_usage self amount c =
    (inr tt, c1, [EvGetTokenAllowance (token_of self) (me_of self) (router_of self)]).
Proof.
  intros Hal Hle. unfold StargateBridgeHelper._approve_stablecoin_usage.
  rewrite (run_bind_inr _ _ _ _ _ _ (run_call_inr _ _ _ _ _ Hal)).
  now replace (allowance >=? amount) with true by lia.
Qed.


(** The fee estimate asks the router once and submits nothing. *)
Lemma estimate_fee_events (src dst : EVMNetwork.t chain) dst_address c r c' evs :
  StargateUtils.estimate_layerzero_swap_fee W3 src dst dst_address c = (r, c', evs) ->
  transactions evs = [] /\ List.filter is_log evs = [].
Proof.
  unfold StargateUtils.estimate_layerzero_swap_fee. run_monad.
  intros H. repeat case_match; simplify_eq; auto.
Qed.

Lemma estimate_gas_events (network : EVMNetwork.t chain) c r c' evs :
  StargateUtils.estimate_swap_gas_price K network c = (r, c', evs) ->
  transactions evs = [].
Proof.
  unfold StargateUtils.estimate_swap_gas_price. run_monad.
  intros H. repeat case_match; simplify_eq; auto.
Qed.

Lemma native_check_events (src dst : EVMNetwork.t chain) address c r c' evs :
  StargateUtils.is_enough_native_token_balance_for_stargate_swap_fee K W3 src dst address c =
    (r, c', evs) ->
  transactions evs = [].
Proof.
  unfold StargateUtils.is_enough_native_token_balance_for_stargate_swap_fee.
  unfold mbind, M_bind, bind at 1 2 3. unfold call at 1.
  intros H.
  destruct (EVMNetwork.get_balance src address c) as [[e|bal] c1]; [now simplify_eq|].
  destruct (StargateUtils.estimate_swap_gas_price K src c1) as [[[e|g] c2] ev2] eqn:Hg;
    apply estimate_gas_events in Hg; [simplify_eq; cbn; exact Hg|].
  destruct (StargateUtils.estimate_layerzero_swap_fee W3 src dst address c2)
    as [[[e|f] c3] ev3] eqn:Hf;
    apply estimate_fee_events in Hf as [Hf _].
  - simplify_eq. cbn. rewrite List.filter_app. unfold transactions in *. now rewrite Hg, Hf.
  - cbn in H. simplify_eq. cbn. rewrite !List.filter_app. unfold transactions in *.
    now rewrite Hg, Hf.
Qed.

Lemma is_bridge_possible_events self c r c' evs :
  StargateBridgeHelper._is_bridge_possible K W3 self c = (r, c', evs) ->
  transactions evs = [].
Proof.
  unfold StargateBridgeHelper._is_bridge_possible.
  unfold mbind, M_bind, bind at 1. intros H.
  destruct (StargateUtils.is_enough_native_token_balance_for_stargate_swap_fee _ _ _ _ _ _)
    as [[[e|enough] c1] ev1] eqn:Hn; apply native_check_events in Hn.
  { now simplify_eq. }
  destruct enough; cbn in H.
  - run_monad. repeat case_match; simplify_eq;
      rewrite transactions_app, Hn; reflexivity.
  - run_monad. simplify_eq. now rewrite transactions_app, Hn.
Qed.

Lemma is_bridge_possible_native_short self c c' evs :
  StargateUtils.is_enough_native_token_balance_for_stargate_swap_fee K W3
    (src_of self) (StargateBridgeHelper.dst_network self) (me_of self) c = (inr false, c', evs) ->
  StargateBridgeHelper._is_bridge_possible K W3 self c = (inr false, c', evs).
Proof.
  intros H. unfold StargateBridgeHelper._is_bridge_possible.
  rewrite (run_bind_inr _ _ _ _ _ _ H). cbn. now rewrite app_nil_r.
Qed.

Lemma is_bridge_possible_after_native self c c1 ev1 stablecoin_balance c2 :
  StargateUtils.is_enough_native_token_balance_for_stargate_swap_fee K W3
    (src_of self) (StargateBridgeHelper.dst_network self) (me_of self) c = (inr true, c1, ev1) ->
  EVMNetwork.get_token_balance (src_of self) (token_of self) (me_of self) c1
    = (inr stablecoin_balance, c2) ->
  StargateBridgeHelper._is_bridge_possible K W3 self c =
    (inr (negb (stablecoin_balance <? StargateBridgeHelper.amount self)), c2,
     ev1 ++ [EvGetTokenBalance (token_of self) (me_of self)]).
Proof.
  intros H1 H2. unfold StargateBridgeHelper._is_bridge_possible.
  rewrite (run_bind_inr _ _ _ _ _ _ H1). cbn [negb].
  rewrite (run_bind_inr _ _ _ _ _ _ (run_call_inr _ _ _ _ _ H2)).
  destruct (stablecoin_balance <? _); cbn; now rewrite ?app_nil_r.
Qed.

Lemma make_bridge_rejected self c c' evs :
  StargateBridgeHelper._is_bridge_possible K W3 self c = (inr false, c', evs) ->
  StargateBridgeHelper.make_bridge K W3 self c = (inr (Some false), c', evs).
Proof.
  intros H. unfold StargateBridgeHelper.make_bridge.
  rewrite (run_bind_inr _ _ _ _ _ _ H). cbn. now rewrite app_nil_r.
Qed.

(** C1: when the native balance is at most the estimated gas cost plus the
    relay fee, or the stablecoin balance is below the amount, the
    feasibility check answers false, and [make_bridge] returns [False]
    without raising and without submitting an approval or a swap. *)
Theorem make_bridge_rejects_without_transactions self c c' evs :
  (exists balance c1 gas_cost c2 ev2 relay_fee ev3,
      EVMNetwork.get_balance (src_of self) (me_of self) c = (inr balance, c1) /\
      StargateUtils.estimate_swap_gas_price K (src_of self) c1 = (inr gas_cost, c2, ev2) /\
      StargateUtils.estimate_layerzero_swap_fee W3 (src_of self)
        (StargateBridgeHelper.dst_network self) (me_of self) c2 = (inr relay_fee, c', ev3) /\
      balance <= gas_cost + relay_fee /\
      evs = EvGetBalance (me_of self) :: ev2 ++ ev3) \/
  (exists c1 ev1 stablecoin_balance,
      StargateUtils.is_enough_native_token_balance_for_stargate_swap_fee K W3
        (src_of self) (StargateBridgeHelper.dst_network self) (me_of self) c
        = (inr true, c1, ev1) /\
      EVMNetwork.get_token_balance (src_of self) (token_of self) (me_of self) c1
        = (inr stablecoin_balance, c') /\
      stablecoin_balance < StargateBridgeHelper.amount self /\
      evs = ev1 ++ [EvGetTokenBalance (token_of self) (me_of self)]) ->
  StargateBridgeHelper._is_bridge_possible K W3 self c = (inr false, c', evs) /\
  StargateBridgeHelper.make_bridge K W3 self c = (inr (Some false), c', evs) /\
  transactions evs = [].
Proof.
  intros Hfail.
  assert (Hposs : StargateBridgeHelper._is_bridge_possible K W3 self c = (inr false, c', evs)).
  { destruct Hfail as [(bal & c1 & g & c2 & ev2 & f & ev3 & H1 & H2 & H3 & Hle & ->) |
                       (c1 & ev1 & sb & H1 & H2 & Hlt & ->)].
    - apply is_bridge_possible_native_short.
      rewrite (native_check_run K W3 _ _ _ _ _ _ _ _ _ _ _ _ H1 H2 H3).
      now replace (bal >? g + f) with false by lia.
    - rewrite (is_bridge_possible_after_native _ _ _ _ _ _ H1 H2).
      now replace (sb <? StargateBridgeHelper.amount self) with true by lia. }
  split; [exact Hposs|]. split.
  - now apply make_bridge_rejected.
  - eapply is_bridge_possible_events, Hposs.
Qed.

(** [make_bridge] once the swap has been submitted and polled: the outcome
    is the outcome of the result check. *)
Lemma make_bridge_run_confirm self c c1 ev1 c2 ev2 tx_hash c3 ev3 result c4 :
  StargateBridgeHelper._is_bridge_possible K W3 self c = (inr true, c1, ev1) ->
  StargateBridgeHelper._approve_stablecoin_usage self (StargateBridgeHelper.amount self) c1
    = (inr tt, c2, ev2) ->
  StargateBridgeHelper._send_swap_transaction K W3 self c2 = (inr tx_hash, c3, ev3) ->
  EVMNetwork.wait_for_transaction (src_of self) tx_hash c3 = (inr result, c4) ->
  StargateBridgeHelper.make_bridge K W3 self c =
    (let '(r, c5, ev5) := StargateBridgeHelper._check_tx_result result "Stargate swap" c4 in
     (match r with inl e => inl e | inr _ => inr None end, c5,
      ev1 ++ ev2 ++ ev3 ++ [EvWaitForTransaction tx_hash] ++ ev5)).
Proof.
  intros H1 H2 H3 H4. unfold StargateBridgeHelper.make_bridge.
  rewrite (run_bind_inr _ _ _ _ _ _ H1). cbn [negb].
  rewrite (run_bind_inr _ _ _ _ _ _ H2).
  rewrite (run_bind_inr _ _ _ _ _ _ H3).
  rewrite (run_bind_inr _ _ _ _ _ _ (run_call_inr _ _ _ _ _ H4)).
  destruct (StargateBridgeHelper._check_tx_result _ _ _) as [[[e|[]] c5] ev5] eqn:Hck.
  - now rewrite (run_bind_inl _ _ _ _ _ _ Hck).
  - rewrite (run_bind_inr _ _ _ _ _ _ Hck). cbn. now rewrite app_nil_r.
Qed.

(** C4: the result check raises [TransactionNotFound] exactly on
    [NOT_FOUND] and [TransactionFailed] exactly on [FAILED], two different
    exceptions, and returns on [SUCCESS]; the approval step and
    [make_bridge] end as the check does on the status they polled. *)
Theorem tx_result_check_raises_by_status self (result : TransactionStatus.t) (name : string) c :
  ((exists msg c' evs,
       StargateBridgeHelper._check_tx_result result name c
         = (inl (TransactionNotFound msg), c', evs))
   <-> result = TransactionStatus.NOT_FOUND) /\
  ((exists msg c' evs,
       StargateBridgeHelper._check_tx_result result name c
         = (inl (TransactionFailed msg), c', evs))
   <-> result = TransactionStatus.FAILED) /\
  (forall msg msg', TransactionNotFound msg <> TransactionFailed msg') /\
  (result = TransactionStatus.SUCCESS ->
   StargateBridgeHelper._check_tx_result result name c
     = (inr tt, c, [EvLogInfo [Lit (name +:+ " transaction succeed")]])) /\
  (forall amount allowance c1 tx_hash c2 c3,
      EVMNetwork.get_token_allowance (src_of self) (token_of self) (me_of self)
        (router_of self) c = (inr allowance, c1) ->
      allowance < amount ->
      EVMNetwork.approve_token_usage (src_of self) (key_of self) (token_of self)
        (router_of self) amount c1 = (inr tx_hash, c2) ->
      EVMNetwork.wait_for_transaction (src_of self) tx_hash c2 = (inr result, c3) ->
      StargateBridgeHelper._approve_stablecoin_usage self amount c =
        (let '(r, c4, ev) :=
           StargateBridgeHelper._check_tx_result result (approve_name self) c3 in
         (r, c4,
          [EvGetTokenAllowance (token_of self) (me_of self) (router_of self);
           EvApproveTokenUsage (key_of self) (token_of self) (router_of self) amount;
           EvWaitForTransaction tx_hash] ++ ev))) /\
  (forall c1 ev1 c2 ev2 tx_hash c3 ev3 c4,
      StargateBridgeHelper._is_bridge_possible K W3 self c = (inr true, c1, ev1) ->
      StargateBridgeHelper._approve_stablecoin_usage self (StargateBridgeHelper.amount self) c1
        = (inr tt, c2, ev2) ->
      StargateBridgeHelper._send_swap_transaction K W3 self c2 = (inr tx_hash, c3, ev3) ->
      EVMNetwork.wait_for_transaction (src_of self) tx_hash c3 = (inr result, c4) ->
      StargateBridgeHelper.make_bridge K W3 self c =
        (let '(r, c5, ev5) :=
           StargateBridgeHelper._check_tx_result result "Stargate swap" c4 in
         (match r with inl e => inl e | inr _ => inr None end, c5,
          ev1 ++ ev2 ++ ev3 ++ [EvWaitForTransaction tx_hash] ++ ev5))).
Proof.
  repeat split.
  - intros (msg & c' & evs & H). rewrite check_tx_result_run in H.
    now destruct result.
  - intros ->. rewrite check_tx_result_run. eauto.
  - intros (msg & c' & evs & H). rewrite check_tx_result_run in H.
    now destruct result.
  - intros ->. rewrite check_tx_result_run. eauto.
  - discriminate.
  - intros ->. apply check_tx_result_run.
  - intros amount allowance c1 tx_hash c2 c3 Hal Hlt Hap Hw.
    rewrite (approve_run_short _ _ _ _ _ Hal Hlt), Hap, Hw. reflexivity.
  - intros. eapply make_bridge_run_confirm; eassumption.
Qed.

(** C10: a status that is none of [NOT_FOUND], [FAILED], [SUCCESS] makes
    the result check return without raising and without a log line, so
    the approval step and [make_bridge] complete as on a non-error
    outcome. *)
Theorem tx_result_check_passes_unrecognized self (result : TransactionStatus.t)
    (name : string) c :
  result <> TransactionStatus.NOT_FOUND ->
  result <> TransactionStatus.FAILED ->
  result <> TransactionStatus.SUCCESS ->
  StargateBridgeHelper._check_tx_result result name c = (inr tt, c, []) /\
  (forall amount allowance c1 tx_hash c2 c3,
      EVMNetwork.get_token_allowance (src_of self) (token_of self) (me_of self)
        (router_of self) c = (inr allowance, c1) ->
      allowance < amount ->
      EVMNetwork.approve_token_usage (src_of self) (key_of self) (token_of self)
        (router_of self) amount c1 = (inr tx_hash, c2) ->
      EVMNetwork.wait_for_transaction (src_of self) tx_hash c2 = (inr result, c3) ->
      StargateBridgeHelper._approve_stablecoin_usage self amount c =
        (inr tt, c3,
         [EvGetTokenAllowance (token_of self) (me_of self) (router_of self);
          EvApproveTokenUsage (key_of self) (token_of self) (router_of self) amount;
          EvWaitForTransaction tx_hash])) /\
  (forall c1 ev1 c2 ev2 tx_hash c3 ev3 c4,
      StargateBridgeHelper._is_bridge_possible K W3 self c = (inr true, c1, ev1) ->
      StargateBridgeHelper._approve_stablecoin_usage self (StargateBridgeHelper.amount self) c1
        = (inr tt, c2, ev2) ->
      StargateBridgeHelper._send_swap_transaction K W3 self c2 = (inr tx_hash, c3, ev3) ->
      EVMNetwork.wait_for_transaction (src_of self) tx_hash c3 = (inr result, c4) ->
      StargateBridgeHelper.make_bridge K W3 self c =
        (inr None, c4, ev1 ++ ev2 ++ ev3 ++ [EvWaitForTransaction tx_hash])).
Proof.
  intros Hnf Hf Hs.
  assert (Hck : forall nm c0,
             StargateBridgeHelper._check_tx_result (chain := chain) result nm c0
               = (inr tt, c0, [])).
  { intros nm c0. rewrite check_tx_result_run. now destruct result. }
  split; [apply Hck|]. split.
  - intros amount allowance c1 tx_hash c2 c3 Hal Hlt Hap Hw.
    rewrite (approve_run_short _ _ _ _ _ Hal Hlt), Hap, Hw, Hck. reflexivity.
  - intros c1 ev1 c2 ev2 tx_hash c3 ev3 c4 H1 H2 H3 H4.
    rewrite (make_bridge_run_confirm _ _ _ _ _ _ _ _ _ _ _ H1 H2 H3 H4), Hck.
    reflexivity.
Qed.

Lemma make_bridge_inv self c r c' evs :
  StargateBridgeHelper.make_bridge K W3 self c = (inr r, c', evs) ->
  (r = Some false /\
   StargateBridgeHelper._is_bridge_possible K W3 self c = (inr false, c', evs)) \/
  (r = None /\
   exists c1 ev1 c2 ev2 tx_hash c3 ev3 result ev5,
     StargateBridgeHelper._is_bridge_possible K W3 self c = (inr true, c1, ev1) /\
     StargateBridgeHelper._approve_stablecoin_usage self (StargateBridgeHelper.amount self) c1
       = (inr tt, c2, ev2) /\
     StargateBridgeHelper._send_swap_transaction K W3 self c2 = (inr tx_hash, c3, ev3) /\
     EVMNetwork.wait_for_transaction (src_of self) tx_hash c3 = (inr result, c') /\
     StargateBridgeHelper._check_tx_result result "Stargate swap" c' = (inr tt, c', ev5) /\
     evs = ev1 ++ ev2 ++ ev3 ++ [EvWaitForTransaction tx_hash] ++ ev5).
Proof.
  unfold StargateBridgeHelper.make_bridge. intros H.
  apply bind_inr_inv in H as (possible & c1 & ev1 & eva & H1 & H & ->).
  destruct possible; cbn [negb] in H.
  - right.
    apply bind_inr_inv in H as ([] & c2 & ev2 & evb & H2 & H & ->).
    apply bind_inr_inv in H as (tx_hash & c3 & ev3 & evc & H3 & H & ->).
    apply bind_inr_inv in H as (result & c4 & ev4 & evd & H4 & H & ->).
    apply call_inv in H4 as [H4 ->].
    apply bind_inr_inv in H as ([] & c5 & ev5 & eve & H5 & H & ->).
    injection H as <- <- <-.
    destruct (check_tx_result_no_tx _ _ _ _ _ _ H5) as [-> _].
    split; [reflexivity|].
    exists c1, ev1, c2, ev2, tx_hash, c3, ev3, result, ev5.
    rewrite app_nil_r. auto 10.
  - left. injection H as <- <- <-. rewrite app_nil_r. auto.
Qed.

(** C9: a [make_bridge] that returns returns either [False], exactly when
    the feasibility check answered false, or nothing ([None]), exactly
    when every step up to the result check completed; it never returns
    [True]. *)
Theorem make_bridge_returns_none_on_success self c :
  (forall r c' evs,
      StargateBridgeHelper.make_bridge K W3 self c = (inr r, c', evs) <->
      (r = Some false /\
       StargateBridgeHelper._is_bridge_possible K W3 self c = (inr false, c', evs)) \/
      (r = None /\
       exists c1 ev1 c2 ev2 tx_hash c3 ev3 result ev5,
         StargateBridgeHelper._is_bridge_possible K W3 self c = (inr true, c1, ev1) /\
         StargateBridgeHelper._approve_stablecoin_usage self
           (StargateBridgeHelper.amount self) c1 = (inr tt, c2, ev2) /\
         StargateBridgeHelper._send_swap_transaction K W3 self c2 = (inr tx_hash, c3, ev3) /\
         EVMNetwork.wait_for_transaction (src_of self) tx_hash c3 = (inr result, c') /\
         StargateBridgeHelper._check_tx_result result "Stargate swap" c' = (inr tt, c', ev5) /\
         evs = ev1 ++ ev2 ++ ev3 ++ [EvWaitForTransaction tx_hash] ++ ev5)) /\
  (forall c' evs,
      StargateBridgeHelper.make_bridge K W3 self c <> (inr (Some true), c', evs)).
Proof.
  split.
  - intros r c' evs. split; [apply make_bridge_inv|].
    intros [[-> H] | [-> (c1 & ev1 & c2 & ev2 & tx_hash & c3 & ev3 & result & ev5 &
                           H1 & H2 & H3 & H4 & H5 & ->)]].
    + now apply make_bridge_rejected.
    + rewrite (make_bridge_run_confirm _ _ _ _ _ _ _ _ _ _ _ H1 H2 H3 H4), H5.
      reflexivity.
  - intros c' evs H. apply make_bridge_inv in H as [[H _] | [H _]]; discriminate H.
Qed.

(** The swap submission, call by call, when it returns. *)
Lemma send_swap_inv self c tx_hash c' evs :
  StargateBridgeHelper._send_swap_transaction K W3 self c = (inr tx_hash, c', evs) ->
  exists contract layerzero_fee c1 ev1 nonce c2 gas_params c3 min_amount gas c4,
    Web3.to_checksum_address W3 (router_of self) = inr contract /\
    StargateUtils.estimate_layerzero_swap_fee W3 (src_of self)
      (StargateBridgeHelper.dst_network self) (me_of self) c = (inr layerzero_fee, c1, ev1) /\
    EVMNetwork.get_nonce (src_of self) (me_of self) c1 = (inr nonce, c2) /\
    EVMNetwork.get_transaction_gas_params (src_of self) c2 = (inr gas_params, c3) /\
    StargateBridgeHelper.amount_with_slippage (StargateBridgeHelper.amount self)
      (StargateBridgeHelper.slippage self) = inr min_amount /\
    StargateConstants.get_randomized_swap_gas_limit K (EVMNetwork.name (src_of self)) c3
      = (inr gas, c4) /\
    evs = ev1 ++
          [EvGetNonce (me_of self);
           EvGetTransactionGasParams;
           EvLogInfo [Lit "Estimated fees. LayerZero fee: "; FInt layerzero_fee;
                      Lit ". Gas price: "; FDict gas_params];
           EvRandomizedSwapGasLimit (EVMNetwork.name (src_of self));
           EvSendRawTransaction
             {| signed :=
                  {| tx_to := contract;
                     tx_call := StargateBridgeHelper.swap_call self min_amount;
                     tx_params :=
                       StargateBridgeHelper.swap_params (me_of self) layerzero_fee gas
                         gas_params nonce |};
                signer := key_of self |};
           EvLogInfo [Lit "Stargate swap transaction signed and sent. Hash: ";
                      FHex tx_hash]].
Proof.
  unfold StargateBridgeHelper._send_swap_transaction. intros H.
  apply bind_inr_inv in H as (contract & c0 & ev0 & eva & H0 & H & ->).
  unfold lift in H0. injection H0 as H0 <- <-.
  apply bind_inr_inv in H as (fee & c1 & ev1 & evb & H1 & H & ->).
  apply bind_inr_inv in H as (nonce & c2 & ev2 & evc & H2 & H & ->).
  apply call_inv in H2 as [H2 ->].
  apply bind_inr_inv in H as (gp & c3 & ev3 & evd & H3 & H & ->).
  apply call_inv in H3 as [H3 ->].
  apply bind_inr_inv in H as (min_amount & c3' & ev4 & eve & H4 & H & ->).
  unfold lift in H4. injection H4 as H4 <- <-.
  apply bind_inr_inv in H as ([] & c3' & ev5 & evf & H5 & H & ->).
  unfold logger_info in H5. injection H5 as <- <-.
  apply bind_inr_inv in H as (gas & c4 & ev6 & evg & H6 & H & ->).
  apply call_inv in H6 as [H6 ->].
  apply bind_inr_inv in H as (h & c5 & ev7 & evh & H7 & H & ->).
  apply call_inv in H7 as [H7 ->].
  apply bind_inr_inv in H as ([] & c5' & ev8 & evi & H8 & H & ->).
  unfold logger_info in H8. injection H8 as <- <-.
  injection H as <- <- <-.
  exists contract, fee, c1, ev1, nonce, c2, gp, c3, min_amount, gas, c4.
  repeat (split; [assumption|]). reflexivity.
Qed.

(** Whatever its outcome, the swap submission submits at most once. *)
Lemma send_swap_at_most_one self c r c' evs :
  StargateBridgeHelper._send_swap_transaction K W3 self c = (r, c', evs) ->
  (length (transactions evs) <= 1)%nat.
Proof.
  unfold StargateBridgeHelper._send_swap_transaction.
  unfold mbind, M_bind, bind at 1 2. unfold lift at 1. intros H.
  destruct (Web3.to_checksum_address W3 _) as [e|contract]; [simplify_eq; cbn; lia|].
  destruct (StargateUtils.estimate_layerzero_swap_fee _ _ _ _ _) as [[[e|fee] c1] ev1] eqn:Hf;
    apply estimate_fee_events in Hf as [Hf _].
  all: unfold transactions in *.
  { simplify_eq. cbn. rewrite Hf. cbn. lia. }
  run_monad.
  repeat case_match; simplify_eq; cbn;
    rewrite ?List.filter_app, ?Hf; cbn; lia.
Qed.

Lemma swap_params_nonce from value gas (gas_params : gmap string PyVal) nonce :
  StargateBridgeHelper.swap_params from value gas gas_params nonce !! "nonce"
    = Some (PInt nonce).
Proof. unfold StargateBridgeHelper.swap_params. apply lookup_insert_eq. Qed.

(** An entry of the display survives when the gas parameters do not name
    its key. *)
Lemma swap_params_kept from value gas (gas_params : gmap string PyVal) nonce :
  (gas_params !! "from" = None ->
   StargateBridgeHelper.swap_params from value gas gas_params nonce !! "from"
     = Some (PStr from)) /\
  (gas_params !! "value" = None ->
   StargateBridgeHelper.swap_params from value gas gas_params nonce !! "value"
     = Some (PInt value)) /\
  (gas_params !! "gas" = None ->
   StargateBridgeHelper.swap_params from value gas gas_params nonce !! "gas"
     = Some (PInt gas)).
Proof.
  unfold StargateBridgeHelper.swap_params.
  repeat split; intros Hnone;
    rewrite lookup_insert_ne by discriminate;
    rewrite lookup_union_r by exact Hnone;
    now simplify_map_eq.
Qed.

(** An entry of the gas parameters under another key than ['nonce'] is in
    the dictionary as it was read. *)
Lemma swap_params_named from value gas (gas_params : gmap string PyVal) nonce k v :
  k <> "nonce" -> gas_params !! k = Some v ->
  StargateBridgeHelper.swap_params from value gas gas_params nonce !! k = Some v.
Proof.
  intros Hk Hv. unfold StargateBridgeHelper.swap_params.
  rewrite lookup_insert_ne by congruence. now apply lookup_union_Some_l.
Qed.

(** A swap submission that raises has submitted nothing, unless it is
    [send_raw_transaction] that raised. *)
Lemma send_swap_raise_transactions self c e c' evs :
  StargateBridgeHelper._send_swap_transaction K W3 self c = (inl e, c', evs) ->
  transactions evs = [] \/
  exists raw c4,
    transactions evs = [EvSendRawTransaction raw] /\
    EVMNetwork.send_raw_transaction (src_of self) raw c4 = (inl e, c').
Proof.
  unfold StargateBridgeHelper._send_swap_transaction.
  unfold mbind, M_bind, bind at 1 2. unfold lift at 1. intros H.
  destruct (Web3.to_checksum_address W3 _) as [e0|contract]; [simplify_eq; cbn; auto|].
  destruct (StargateUtils.estimate_layerzero_swap_fee _ _ _ _ _) as [[[e0|fee] c1] ev1] eqn:Hf;
    apply estimate_fee_events in Hf as [Hf _].
  all: unfold transactions in *.
  { simplify_eq. cbn. rewrite Hf. auto. }
  run_monad.
  repeat case_match; simplify_eq; cbn;
    rewrite ?List.filter_app, ?Hf; cbn;
    first [left; reflexivity | right; eexists _, _; split; [reflexivity | eassumption]].
Qed.

(** C8, as the code has it: a swap submission submits at most one
    transaction.  One that raises has submitted none, unless the raise is
    that of [send_raw_transaction] itself.  One that returns has submitted
    exactly one, signed with the account's key and sent to the router,
    whose call is [swap] with the destination chain id, the two pool ids,
    the sender as refund address, the amount, the amount less slippage,
    the zero dust triple, the sender as recipient and an empty payload;
    its nonce is the one just read; its value is the fee quoted at the
    start of this submission when the gas parameters name no ['value'],
    and the ['value'] of the gas parameters when they name one. *)
Theorem swap_submits_one_transaction self c r c' evs :
  StargateBridgeHelper._send_swap_transaction K W3 self c = (r, c', evs) ->
  (length (transactions evs) <= 1)%nat /\
  (forall e, r = inl e ->
     transactions evs = [] \/
     exists raw c4,
       transactions evs = [EvSendRawTransaction raw] /\
       EVMNetwork.send_raw_transaction (src_of self) raw c4 = (inl e, c')) /\
  forall tx_hash, r = inr tx_hash ->
    exists contract layerzero_fee c1 ev1 nonce c2 gas_params c3 min_amount raw,
      Web3.to_checksum_address W3 (router_of self) = inr contract /\
      StargateUtils.estimate_layerzero_swap_fee W3 (src_of self)
        (StargateBridgeHelper.dst_network self) (me_of self) c
        = (inr layerzero_fee, c1, ev1) /\
      EVMNetwork.get_nonce (src_of self) (me_of self) c1 = (inr nonce, c2) /\
      EVMNetwork.get_transaction_gas_params (src_of self) c2 = (inr gas_params, c3) /\
      StargateBridgeHelper.amount_with_slippage (StargateBridgeHelper.amount self)
        (StargateBridgeHelper.slippage self) = inr min_amount /\
      transactions evs = [EvSendRawTransaction raw] /\
      signer raw = key_of self /\
      tx_to (signed raw) = contract /\
      tx_call (signed raw) =
        {| fn_name := "swap";
           fn_args :=
             [PInt (EVMNetwork.stargate_chain_id (StargateBridgeHelper.dst_network self));
              PInt (Stablecoin.stargate_pool_id (StargateBridgeHelper.src_stablecoin self));
              PInt (Stablecoin.stargate_pool_id (StargateBridgeHelper.dst_stablecoin self));
              PStr (me_of self);
              PInt (StargateBridgeHelper.amount self);
              PInt min_amount;
              PList [PInt 0; PInt 0; PStr "0x"];
              PStr (me_of self);
              PStr "0x"] |} /\
      tx_params (signed raw) !! "nonce" = Some (PInt nonce) /\
      (gas_params !! "from" = None ->
       tx_params (signed raw) !! "from" = Some (PStr (me_of self))) /\
      (gas_params !! "value" = None ->
       tx_params (signed raw) !! "value" = Some (PInt layerzero_fee)) /\
      (forall v, gas_params !! "value" = Some v ->
                 tx_params (signed raw) !! "value" = Some v).
Proof.
  intros H. split; [eapply send_swap_at_most_one, H|]. split.
  { intros e ->. eapply send_swap_raise_transactions, H. }
  intros tx_hash ->.
  apply send_swap_inv in H
    as (contract & fee & c1 & ev1 & nonce & c2 & gp & c3 & min_amount & gas & c4 &
        H0 & H1 & H2 & H3 & H4 & H5 & ->).
  destruct (estimate_fee_events _ _ _ _ _ _ _ H1) as [Hno _].
  destruct (swap_params_kept (me_of self) fee gas gp nonce) as (Hfrom & Hvalue & _).
  eexists contract, fee, c1, ev1, nonce, c2, gp, c3, min_amount, _.
  repeat (split; [eassumption|]).
  split; [rewrite transactions_app, Hno; reflexivity|].
  cbn. repeat (split; [reflexivity|]).
  split; [apply swap_params_nonce|]. split; [assumption|]. split; [assumption|].
  intros v Hv. apply swap_params_named; [discriminate | exact Hv].
Qed.

End BridgeFacts.

(** ** The scenarios of the specification, on the mock network *)

(** C1 with stablecoin balance 49 and amount 50: the feasibility check
    answers false and nothing is submitted. *)
Lemma make_bridge_rejects_without_transactions_witness :
  exists c' evs,
    StargateBridgeHelper._is_bridge_possible Mock.constants Mock.web3 (Mock.helper 50)
      (Mock.with_stable_balance 49 (Mock.world TransactionStatus.SUCCESS))
      = (inr false, c', evs) /\
    StargateBridgeHelper.make_bridge Mock.constants Mock.web3 (Mock.helper 50)
      (Mock.with_stable_balance 49 (Mock.world TransactionStatus.SUCCESS))
      = (inr (Some false), c', evs) /\
    transactions evs = [].
Proof.
  eexists _, _.
  apply (make_bridge_rejects_without_transactions Mock.constants Mock.web3 (Mock.helper 50)
           (Mock.with_stable_balance 49 (Mock.world TransactionStatus.SUCCESS))).
  right. eexists _, _, 49.
  split; [reflexivity|]. split; [reflexivity|]. split; [simpl; lia | reflexivity].
Defined.

(** C4 on an approval whose polled status is [FAILED]. *)
Lemma tx_result_check_raises_by_status_witness :
  StargateBridgeHelper._approve_stablecoin_usage (Mock.helper 50) 50
    (Mock.with_allowance 0 (Mock.world TransactionStatus.FAILED))
  = (inl (TransactionFailed "Approve USDC usage transaction failed"),
     Mock.approved 50 (Mock.with_allowance 0 (Mock.world TransactionStatus.FAILED)),
     [EvGetTokenAllowance "0xUSDC" "0xA11ce" "0xRouter";
      EvApproveTokenUsage [Byte.x2a] "0xUSDC" "0xRouter" 50;
      EvWaitForTransaction Mock.approve_hash]).
Proof.
  destruct (tx_result_check_raises_by_status Mock.constants Mock.web3 (Mock.helper 50)
              TransactionStatus.FAILED "Stargate swap"
              (Mock.with_allowance 0 (Mock.world TransactionStatus.FAILED)))
    as (_ & _ & _ & _ & Happrove & _).
  rewrite (Happrove 50 0 _ Mock.approve_hash _ _ eq_refl ltac:(lia) eq_refl eq_refl).
  reflexivity.
Defined.





(** C8 on the mock network: one transaction, carrying the quoted fee 5. *)
Lemma swap_submits_one_transaction_witness :
  (length
     (transactions
        (StargateBridgeHelper._send_swap_transaction Mock.constants Mock.web3
           (Mock.helper 50) (Mock.world TransactionStatus.SUCCESS)).2) <= 1)%nat /\
  exists raw,
    transactions
      (StargateBridgeHelper._send_swap_transaction Mock.constants Mock.web3
         (Mock.helper 50) (Mock.world TransactionStatus.SUCCESS)).2
      = [EvSendRawTransaction raw] /\
    fn_args (tx_call (signed raw)) =
      [PInt 102; PInt 1; PInt 2; PStr "0xA11ce"; PInt 50; PInt 25;
       PList [PInt 0; PInt 0; PStr "0x"]; PStr "0xA11ce"; PStr "0x"] /\
    tx_params (signed raw) !! "value" = Some (PInt 5).
Proof.
  destruct (swap_submits_one_transaction Mock.constants Mock.web3 (Mock.helper 50)
              (Mock.world TransactionStatus.SUCCESS) (inr Mock.swap_hash)
              (Mock.sent (Mock.world TransactionStatus.SUCCESS))
              (StargateBridgeHelper._send_swap_transaction Mock.constants Mock.web3
                 (Mock.helper 50) (Mock.world TransactionStatus.SUCCESS)).2
              eq_refl) as (Hone & _ & Hsent).
  split; [exact Hone|].
  destruct (Hsent Mock.swap_hash eq_refl)
    as (contract & fee & c1 & ev1 & nonce & c2 & gp & c3 & min_amount & raw &
        _ & Hfee & Hnonce & Hgp & Hmin & Htx & _ & _ & Hcall & _ & _ & Hvalue & _).
  exists raw. split; [exact Htx|].
  injection Hfee as <- <- _. injection Hnonce as _ <-. injection Hgp as <- _.
  injection Hmin as <-.
  split; [now rewrite Hcall | now apply Hvalue].
Defined.

(** C8 fails on the code in two ways.  With a node that does not answer
    the fee quote raises and the submission ends without a transaction.
    With gas parameters [{'gasPrice': 1, 'value': 0, 'gas': 1000}] the
    submission returns and its transaction carries the value 0 of
    [**gas_params], where the fee just quoted is 5. *)
Lemma swap_submission_without_transaction :
  StargateBridgeHelper._send_swap_transaction Mock.constants Mock.web3 (Mock.helper 50)
    (Mock.offline (Mock.world TransactionStatus.SUCCESS))
    = (inl Mock.ConnectionError, Mock.offline (Mock.world TransactionStatus.SUCCESS),
       [EvQuoteLayerZeroFee "0xRouter"
          [PInt 102; PInt 1; PStr "0xA11ce"; PStr "0x";
           PList [PInt 0; PInt 0; PStr "0x"]]]) /\
  transactions
    [EvQuoteLayerZeroFee "0xRouter"
       [PInt 102; PInt 1; PStr "0xA11ce"; PStr "0x";
        PList [PInt 0; PInt 0; PStr "0x"]]] = [] /\
  ~ (forall self c r c' evs,
       StargateBridgeHelper._send_swap_transaction Mock.constants Mock.web3 self c
         = (r, c', evs) ->
       length (transactions evs) = 1%nat) /\
  StargateUtils.estimate_layerzero_swap_fee Mock.web3 Mock.src_naming_gas_and_value Mock.dst
    "0xA11ce" (Mock.world TransactionStatus.SUCCESS)
    = (inr 5, Mock.world TransactionStatus.SUCCESS,
       [EvQuoteLayerZeroFee "0xRouter"
          [PInt 102; PInt 1; PStr "0xA11ce"; PStr "0x";
           PList [PInt 0; PInt 0; PStr "0x"]]]) /\
  (exists raw evs,
     StargateBridgeHelper._send_swap_transaction Mock.constants Mock.web3
       (Mock.helper_on Mock.src_naming_gas_and_value 50)
       (Mock.world TransactionStatus.SUCCESS)
       = (inr Mock.swap_hash, Mock.sent (Mock.world TransactionStatus.SUCCESS), evs) /\
     transactions evs = [EvSendRawTransaction raw] /\
     tx_params (signed raw) !! "value" = Some (PInt 0)) /\
  ~ (forall self c tx_hash c' evs raw layerzero_fee c1 ev1,
       StargateBridgeHelper._send_swap_transaction Mock.constants Mock.web3 self c
         = (inr tx_hash, c', evs) ->
       List.In (EvSendRawTransaction raw) evs ->
       StargateUtils.estimate_layerzero_swap_fee Mock.web3
         (StargateBridgeHelper.src_network self) (StargateBridgeHelper.dst_network self)
         (LocalAccount.address (StargateBridgeHelper.account self)) c
         = (inr layerzero_fee, c1, ev1) ->
       tx_params (signed raw) !! "value" = Some (PInt layerzero_fee)).
Proof.
  split; [reflexivity|]. split; [reflexivity|]. split.
  { intros H.
    specialize (H (Mock.helper 50) (Mock.offline (Mock.world TransactionStatus.SUCCESS))
                  _ _ _ eq_refl).
    discriminate H. }
  split; [reflexivity|].
  split; [eexists _, _; split; [reflexivity|]; split; reflexivity|].
  intros H.
  assert (Hv : @eq (option PyVal) (Some (PInt 0)) (Some (PInt 5))); [|discriminate Hv].
  etransitivity; [symmetry|
    eapply (H (Mock.helper_on Mock.src_naming_gas_and_value 50)
              (Mock.world TransactionStatus.SUCCESS) Mock.swap_hash
              (Mock.sent (Mock.world TransactionStatus.SUCCESS)) _ _ 5
              (Mock.world TransactionStatus.SUCCESS) _);
    [reflexivity | do 5 right; left; reflexivity | reflexivity]].
  reflexivity.
Qed.

(** C10 on a status the enumeration does not name. *)
Lemma tx_result_check_passes_unrecognized_witness :
  StargateBridgeHelper._check_tx_result (TransactionStatus.UNRECOGNIZED 7) "Stargate swap"
    (Mock.world (TransactionStatus.UNRECOGNIZED 7))
  = (inr tt, Mock.world (TransactionStatus.UNRECOGNIZED 7), []).
Proof.
  apply (tx_result_check_passes_unrecognized Mock.constants Mock.web3 (Mock.helper 50)
           (TransactionStatus.UNRECOGNIZED 7) "Stargate swap"
           (Mock.world (TransactionStatus.UNRECOGNIZED 7)));
    discriminate.
Defined.

(** The first end-to-end scenario of the specification: balance 100, gas
    cost 10, relay fee 5, stablecoin balance 50, amount 50, allowance 50,
    status [SUCCESS].  The approval is skipped, one swap is submitted, and
    [make_bridge] returns [None]. *)
Example make_bridge_end_to_end :
  StargateBridgeHelper.make_bridge Mock.constants Mock.web3 (Mock.helper 50)
    (Mock.world TransactionStatus.SUCCESS)
  = (inr None, Mock.sent (Mock.world TransactionStatus.SUCCESS),
     [EvGetBalance "0xA11ce"; EvGetApproveGasLimit; EvGetCurrentGas;
      EvQuoteLayerZeroFee "0xRouter"
        [PInt 102; PInt 1; PStr "0xA11ce"; PStr "0x"; PList [PInt 0; PInt 0; PStr "0x"]];
      EvGetTokenBalance "0xUSDC" "0xA11ce";
      EvGetTokenAllowance "0xUSDC" "0xA11ce" "0xRouter";
      EvQuoteLayerZeroFee "0xRouter"
        [PInt 102; PInt 1; PStr "0xA11ce"; PStr "0x"; PList [PInt 0; PInt 0; PStr "0x"]];
      EvGetNonce "0xA11ce";
      EvGetTransactionGasParams;
      EvLogInfo [Lit "Estimated fees. LayerZero fee: "; FInt 5; Lit ". Gas price: ";
                 FDict {["gasPrice" := PInt 1]}];
      EvRandomizedSwapGasLimit "Source";
      EvSendRawTransaction
        {| signed :=
             {| tx_to := "0xRouter";
                tx_call := StargateBridgeHelper.swap_call (Mock.helper 50) 25;
                tx_params :=
                  StargateBridgeHelper.swap_params "0xA11ce" 5 7
                    {["gasPrice" := PInt 1]} 0 |};
           signer := [Byte.x2a] |};
      EvLogInfo [Lit "Stargate swap transaction signed and sent. Hash: ";
                 FHex Mock.swap_hash];
      EvWaitForTransaction Mock.swap_hash;
      EvLogInfo [Lit "Stargate swap transaction succeed"]]).
Proof. reflexivity. Qed.

(** The third scenario: the swap's polled status is [NOT_FOUND], and
    [make_bridge] raises [TransactionNotFound]. *)
Example make_bridge_not_found :
  (StargateBridgeHelper.make_bridge Mock.constants Mock.web3 (Mock.helper 50)
     (Mock.world TransactionStatus.NOT_FOUND)).1.1
  = inl (TransactionNotFound
           "Stargate swap transaction can't be found in the blockchainfor a log time. Consider changing fee settings").
Proof. reflexivity. Qed.

(** ** The slippage cut: binary64 arithmetic

    [amount * slippage] rounds twice, the amount to a float and the
    product to a float, before [int] truncates.  The lemmas below read
    [SpecFloat]'s rounding as integer arithmetic on mantissas. *)

Lemma digits2_pos_bounds (p : positive) :
  2 ^ (Z.pos (digits2_pos p) - 1) <= Z.pos p < 2 ^ Z.pos (digits2_pos p).
Proof.
  induction p as [p IH|p IH|]; cbn [digits2_pos].
  - rewrite Pos2Z.inj_succ, (Pos2Z.inj_xI p).
    replace (Z.succ (Z.pos (digits2_pos p)) - 1) with (Z.succ (Z.pos (digits2_pos p) - 1)) by lia.
    rewrite !Z.pow_succ_r by lia. lia.
  - rewrite Pos2Z.inj_succ, (Pos2Z.inj_xO p).
    replace (Z.succ (Z.pos (digits2_pos p)) - 1) with (Z.succ (Z.pos (digits2_pos p) - 1)) by lia.
    rewrite !Z.pow_succ_r by lia. lia.
  - cbn. lia.
Qed.

Lemma shr_1_spec (mrs : shr_record) :
  0 <= shr_m mrs ->
  shr_m (shr_1 mrs) = Z.shiftr (shr_m mrs) 1 /\
  shr_r (shr_1 mrs) = Z.testbit (shr_m mrs) 0.
Proof.
  destruct mrs as [m r s]. cbn [shr_m]. intros Hm.
  destruct m as [|[p|p|]|p]; try lia; cbn; auto.
Qed.

Lemma iter_shr_1_spec (p : positive) :
  forall mrs : shr_record,
    0 <= shr_m mrs ->
    shr_m (SpecFloat.iter_pos shr_1 p mrs) = Z.shiftr (shr_m mrs) (Z.pos p) /\
    shr_r (SpecFloat.iter_pos shr_1 p mrs) = Z.testbit (shr_m mrs) (Z.pos p - 1).
Proof.
  induction p as [p IH|p IH|]; intros mrs Hm; cbn [SpecFloat.iter_pos].
  - destruct (shr_1_spec mrs Hm) as [H1 _].
    assert (H1' : 0 <= shr_m (shr_1 mrs)) by (rewrite H1; apply Z.shiftr_nonneg, Hm).
    destruct (IH _ H1') as [H2 _].
    assert (H2' : 0 <= shr_m (SpecFloat.iter_pos shr_1 p (shr_1 mrs)))
      by (rewrite H2; apply Z.shiftr_nonneg, H1').
    destruct (IH _ H2') as [H3 H3r].
    rewrite H3, H3r, H2, H1, !Z.shiftr_shiftr by lia.
    split.
    + f_equal. lia.
    + rewrite Z.shiftr_spec by lia. f_equal. lia.
  - destruct (IH _ Hm) as [H2 _].
    assert (H2' : 0 <= shr_m (SpecFloat.iter_pos shr_1 p mrs))
      by (rewrite H2; apply Z.shiftr_nonneg, Hm).
    destruct (IH _ H2') as [H3 H3r].
    rewrite H3, H3r, H2, !Z.shiftr_shiftr by lia.
    split.
    + f_equal. lia.
    + rewrite Z.shiftr_spec by lia. f_equal. lia.
  - apply shr_1_spec, Hm.
Qed.

Lemma testbit_below_half (m n : Z) :
  0 <= m -> 0 < n -> 2 * (m mod 2 ^ n) < 2 ^ n -> Z.testbit m (n - 1) = false.
Proof.
  intros Hm Hn Hlt.
  apply Z.testbit_false; [lia|].
  assert (Hp : 2 ^ n = 2 * 2 ^ (n - 1)).
  { replace n with (Z.succ (n - 1)) at 1 by lia. apply Z.pow_succ_r. lia. }
  assert (Hpos : 0 < 2 ^ (n - 1)) by (apply Z.pow_pos_nonneg; lia).
  pose proof (Z.div_mod m (2 ^ n) ltac:(lia)) as Hdm.
  pose proof (Z.mod_pos_bound m (2 ^ n) ltac:(lia)) as Hb.
  assert (Hq : m / 2 ^ (n - 1) = 2 * (m / 2 ^ n)).
  { symmetry. apply (Z.div_unique m (2 ^ (n - 1)) _ (m mod 2 ^ n)); [lia|].
    rewrite Hdm at 1. rewrite Hp. ring. }
  rewrite Hq, Z.mul_comm. apply Z.mod_mul. lia.
Qed.

Lemma round_nearest_even_spec (mrs : shr_record) :
  shr_m mrs <= round_nearest_even (shr_m mrs) (loc_of_shr_record mrs) <= shr_m mrs + 1 /\
  (shr_r mrs = false ->
   round_nearest_even (shr_m mrs) (loc_of_shr_record mrs) = shr_m mrs).
Proof.
  destruct mrs as [m [|] [|]]; cbn; destruct (Z.even m); split; (lia || congruence).
Qed.


Lemma fexp_eq (e : Z) : fexp 53 1024 e = Z.max (e - 53) (-1074).
Proof. reflexivity. Qed.

Lemma digits2_pos_le (p : positive) (k : Z) :
  0 <= k -> Z.pos p < 2 ^ k -> Z.pos (digits2_pos p) <= k.
Proof.
  intros Hk Hlt. destruct (digits2_pos_bounds p) as [Hlo _].
  destruct (Z_le_gt_dec (Z.pos (digits2_pos p)) k) as [|Hgt]; [assumption|].
  assert (2 ^ k <= 2 ^ (Z.pos (digits2_pos p) - 1)) by (apply Z.pow_le_mono_r; lia).
  lia.
Qed.

Lemma digits2_pos_gt (p : positive) (k : Z) :
  2 ^ k <= Z.pos p -> k < Z.pos (digits2_pos p).
Proof.
  intros Hle. destruct (digits2_pos_bounds p) as [_ Hhi].
  destruct (Z_lt_le_dec k (Z.pos (digits2_pos p))) as [|Hge]; [assumption|].
  assert (2 ^ Z.pos (digits2_pos p) <= 2 ^ k) by (apply Z.pow_le_mono_r; lia).
  lia.
Qed.

Lemma shr_spec (m e n : Z) :
  0 <= m -> 0 < n ->
  exists mrs,
    shr {| shr_m := m; shr_r := false; shr_s := false |} e n = (mrs, e + n) /\
    shr_m mrs = m / 2 ^ n /\
    shr_r mrs = Z.testbit m (n - 1).
Proof.
  intros Hm Hn. destruct n as [|p|p]; try lia.
  unfold shr. eexists. split; [reflexivity|].
  destruct (iter_shr_1_spec p {| shr_m := m; shr_r := false; shr_s := false |} Hm)
    as [H1 H2].
  rewrite H1, H2. cbn [shr_m]. now rewrite Z.shiftr_div_pow2 by lia.
Qed.

Lemma shr_id (mrs : shr_record) (e n : Z) : n <= 0 -> shr mrs e n = (mrs, e).
Proof. intros Hn. destruct n; try reflexivity. lia. Qed.

(** [binary_round_aux] on a positive mantissa: the mantissa is cut at the
    exponent [G] of the format, to its quotient or the next integer, to
    the quotient when the remainder is below one half; a carry to 2^53 is
    renormalised. *)
Lemma binary_round_aux_spec (m : positive) (e : Z) :
  let G := Z.max (fexp 53 1024 (Z.pos (digits2_pos m) + e)) e in
  exists q',
    Z.pos m / 2 ^ (G - e) <= q' <= Z.pos m / 2 ^ (G - e) + 1 /\
    (2 * (Z.pos m mod 2 ^ (G - e)) < 2 ^ (G - e) -> q' = Z.pos m / 2 ^ (G - e)) /\
    Z.pos m / 2 ^ (G - e) < 9007199254740992 /\
    -1074 <= G /\
    binary_round_aux 53 1024 false (Z.pos m) e loc_Exact =
      match q' with
      | Z.pos p =>
          if (p =? 9007199254740992)%positive then
            if G + 1 <=? 971 then S754_finite false 4503599627370496 (G + 1)
            else S754_infinity false
          else if G <=? 971 then S754_finite false p G else S754_infinity false
      | _ => S754_zero false
      end.
Proof.
  intros G. pose proof (digits2_pos_bounds m) as [Hdlo Hdhi].
  set (d := Z.pos (digits2_pos m)) in *.
  assert (HG : d + e - 53 <= G /\ -1074 <= G /\ e <= G).
  { unfold G. rewrite fexp_eq. lia. }
  unfold binary_round_aux, shr_fexp. cbn [Zdigits2 shr_record_of_loc]. fold d.
  destruct (Z_lt_le_dec e (fexp 53 1024 (d + e))) as [Hlt|Hge].
  - assert (HGe : G = fexp 53 1024 (d + e)) by (unfold G; lia).
    destruct (shr_spec (Z.pos m) e (fexp 53 1024 (d + e) - e) ltac:(lia) ltac:(lia))
      as (mrs & Hshr & Hm & Hr).
    rewrite Hshr. replace (e + (fexp 53 1024 (d + e) - e)) with G by lia.
    rewrite <- HGe in *.
    destruct (round_nearest_even_spec mrs) as [Hrange Hdown].
    set (q' := round_nearest_even (shr_m mrs) (loc_of_shr_record mrs)) in *.
    rewrite Hm in Hrange, Hdown.
    assert (Hpow : 0 < 2 ^ (G - e)) by (apply Z.pow_pos_nonneg; lia).
    assert (Hq0 : 0 <= Z.pos m / 2 ^ (G - e)) by (apply Z.div_pos; lia).
    assert (Hq53 : Z.pos m / 2 ^ (G - e) < 9007199254740992).
    { apply Z.div_lt_upper_bound; [lia|].
      assert (2 ^ d <= 2 ^ (G - e + 53)) by (apply Z.pow_le_mono_r; lia).
      rewrite Z.pow_add_r in H by lia. change (2 ^ 53) with 9007199254740992 in H. lia. }
    exists q'. split; [exact Hrange|]. split.
    { intros Hhalf. apply Hdown. rewrite Hr.
      apply testbit_below_half; [lia | lia | exact Hhalf]. }
    split; [lia|]. split; [lia|].
    destruct q' as [|p|p] eqn:Hq'; [ | | lia].
    + rewrite shr_id by (cbn [Zdigits2]; rewrite fexp_eq; lia). reflexivity.
    + destruct (Pos.eqb_spec p 9007199254740992) as [->|Hne].
      * replace (fexp 53 1024 (Zdigits2 (Z.pos 9007199254740992) + G) - G) with 1
          by (cbn [Zdigits2]; rewrite fexp_eq;
              change (Z.pos (digits2_pos 9007199254740992)) with 54; lia).
        reflexivity.
      * assert (Z.pos p < 9007199254740992) by lia.
        assert (Z.pos (digits2_pos p) <= 53)
          by (apply digits2_pos_le; [lia | exact H]).
        rewrite shr_id by (cbn [Zdigits2]; rewrite fexp_eq; lia).
        reflexivity.
  - assert (HGe : G = e) by (unfold G; lia).
    rewrite shr_id by lia. cbn [shr_m loc_of_shr_record round_nearest_even].
    cbn [Zdigits2]. fold d. rewrite shr_id by lia. cbn [shr_m].
    rewrite HGe, Z.sub_diag, Z.pow_0_r, Z.div_1_r.
    assert (Hd53 : d <= 53) by (rewrite fexp_eq in Hge; lia).
    assert (Hm53 : Z.pos m < 9007199254740992).
    { assert (2 ^ d <= 2 ^ 53) by (apply Z.pow_le_mono_r; lia).
      change (2 ^ 53) with 9007199254740992 in H. lia. }
    exists (Z.pos m). split; [lia|]. split; [reflexivity|]. split; [lia|].
    split; [lia|].
    destruct (Pos.eqb_spec m 9007199254740992) as [->|Hne]; [lia|].
    reflexivity.
Qed.

(** Values m * 2^e are compared after scaling by 2^B, with B large enough
    for every exponent at hand. *)
Section Scaled.
Variable B : Z.
Hypothesis HB : 0 <= B.

Lemma scaled_shift (m e k : Z) : - B <= e -> 0 <= k -> PyFloat.scaled B (m * 2 ^ k) e = PyFloat.scaled B m (e + k).
Proof using HB.
  intros He Hk. unfold PyFloat.scaled.
  replace (e + k + B) with (k + (e + B)) by lia.
  rewrite (Z.pow_add_r 2 k (e + B)) by lia. ring.
Qed.

Lemma scaled_le_mono (m1 m2 e : Z) : - B <= e -> m1 <= m2 -> PyFloat.scaled B m1 e <= PyFloat.scaled B m2 e.
Proof using HB.
  intros He H. unfold PyFloat.scaled. apply Z.mul_le_mono_nonneg_r; [|exact H].
  apply Z.pow_nonneg. lia.
Qed.

Lemma scaled_le_cancel (m1 m2 e : Z) : - B <= e -> PyFloat.scaled B m1 e <= PyFloat.scaled B m2 e -> m1 <= m2.
Proof using HB.
  intros He H. unfold PyFloat.scaled in H.
  apply Z.mul_le_mono_pos_r in H; [exact H|]. apply Z.pow_pos_nonneg; lia.
Qed.

Lemma scaled_le_int (m e a : Z) :
  0 <= m -> - B <= e -> PyFloat.scaled B m e <= PyFloat.scaled B a 0 -> Z.shiftl m e <= a.
Proof using HB.
  intros Hm He H. destruct (Z_le_gt_dec 0 e) as [Hpos|Hneg].
  - rewrite Z.shiftl_mul_pow2 by lia.
    apply (scaled_le_cancel _ _ 0); [lia|].
    now rewrite scaled_shift, Z.add_0_l by lia.
  - rewrite Z.shiftl_div_pow2 by lia.
    apply Z.div_le_upper_bound; [apply Z.pow_pos_nonneg; lia|].
    apply (scaled_le_cancel _ _ e); [lia|].
    rewrite Z.mul_comm, scaled_shift by lia.
    now replace (e + - e) with 0 by lia.
Qed.

(** The rounded mantissa is below every multiple of a power of two at
    least the quantum that is above the value rounded. *)
Lemma round_below_grid (m e G q' hi g : Z) :
  0 <= m -> - B <= e -> e <= G -> G <= g ->
  m / 2 ^ (G - e) <= q' <= m / 2 ^ (G - e) + 1 ->
  (2 * (m mod 2 ^ (G - e)) < 2 ^ (G - e) -> q' = m / 2 ^ (G - e)) ->
  PyFloat.scaled B m e <= PyFloat.scaled B hi g ->
  PyFloat.scaled B q' G <= PyFloat.scaled B hi g.
Proof using HB.
  intros Hm He HeG HGg Hrange Hdown Hle.
  rewrite <- (Z.sub_add G g), Z.add_comm, <- scaled_shift by lia.
  apply scaled_le_mono; [lia|].
  assert (Hn : 0 < 2 ^ (G - e)) by (apply Z.pow_pos_nonneg; lia).
  assert (Hm' : m <= hi * 2 ^ (g - G) * 2 ^ (G - e)).
  { apply (scaled_le_cancel _ _ e); [lia|].
    rewrite !scaled_shift by lia.
    now replace (e + (G - e) + (g - G)) with g by lia. }
  pose proof (Z.div_mod m (2 ^ (G - e)) ltac:(lia)) as Hdm.
  pose proof (Z.mod_pos_bound m (2 ^ (G - e)) ltac:(lia)) as Hb.
  destruct (Z.eq_dec (m mod 2 ^ (G - e)) 0) as [Hz|Hnz].
  - rewrite Hdown by lia. nia.
  - assert (m / 2 ^ (G - e) < hi * 2 ^ (g - G)) by nia. lia.
Qed.

(** The rounded product of a float x = M * 2^E by a float s < 1 of
    exponent at most -53: it is at most x, and at most the float before x
    when x is normal. *)
Lemma mul_round_bounds (M Ms : positive) (E Es q' : Z) :
  let eP := E + Es in
  let G := Z.max (fexp 53 1024 (Z.pos (digits2_pos (M * Ms)) + eP)) eP in
  Z.pos M < 9007199254740992 -> -1074 <= E ->
  Z.pos Ms < 9007199254740992 -> Es <= -53 -> - B <= eP ->
  Z.pos (M * Ms) / 2 ^ (G - eP) <= q' <= Z.pos (M * Ms) / 2 ^ (G - eP) + 1 ->
  (2 * (Z.pos (M * Ms) mod 2 ^ (G - eP)) < 2 ^ (G - eP) ->
   q' = Z.pos (M * Ms) / 2 ^ (G - eP)) ->
  G <= E /\
  PyFloat.scaled B q' G <= PyFloat.scaled B (Z.pos M) E /\
  (4503599627370496 < Z.pos M -> PyFloat.scaled B q' G <= PyFloat.scaled B (Z.pos M - 1) E) /\
  (Z.pos M = 4503599627370496 -> -1074 < E ->
   G <= E - 1 /\ PyFloat.scaled B q' G <= PyFloat.scaled B 9007199254740991 (E - 1)).
Proof using HB.
  intros eP G HM HE HMs HEs HBe Hrange Hdown.
  rewrite Pos2Z.inj_mul in *.
  pose proof (digits2_pos_bounds (M * Ms)) as [Hdlo Hdhi].
  rewrite Pos2Z.inj_mul in Hdlo, Hdhi.
  set (dP := Z.pos (digits2_pos (M * Ms))) in *.
  set (P := Z.pos M * Z.pos Ms) in *.
  assert (HP0 : 0 < P) by (unfold P; lia).
  assert (HGlo : dP + eP - 53 <= G /\ eP <= G) by (unfold G; rewrite fexp_eq; lia).
  assert (Hk : 9007199254740992 <= 2 ^ (- Es)).
  { change 9007199254740992 with (2 ^ 53). apply Z.pow_le_mono_r; lia. }
  assert (Hk1 : 4503599627370496 <= 2 ^ (- Es - 1)).
  { change 4503599627370496 with (2 ^ 52). apply Z.pow_le_mono_r; lia. }
  assert (Hk2 : 2 ^ (- Es) = 2 * 2 ^ (- Es - 1)).
  { replace (- Es) with (Z.succ (- Es - 1)) at 1 by lia. apply Z.pow_succ_r. lia. }
  assert (HvalM : forall k, PyFloat.scaled B k E = PyFloat.scaled B (k * 2 ^ (- Es)) eP).
  { intros k. rewrite scaled_shift by lia. f_equal. unfold eP. lia. }
  (* the digits of the product *)
  assert (HdP : forall c, 0 <= c -> P < 2 ^ c -> dP <= c).
  { intros c Hc Hlt. unfold dP. apply digits2_pos_le; [exact Hc|].
    rewrite Pos2Z.inj_mul. exact Hlt. }
  assert (HGE : G <= E).
  { assert (dP <= 53 - Es).
    { apply HdP; [lia|]. replace (53 - Es) with (53 + - Es) by lia.
      rewrite Z.pow_add_r by lia. change (2 ^ 53) with 9007199254740992. unfold P. nia. }
    unfold G. rewrite fexp_eq. unfold eP. lia. }
  split; [exact HGE|]. split; [|split].
  - apply (round_below_grid P eP G q' (Z.pos M) E); try assumption; try lia.
    rewrite HvalM. apply scaled_le_mono; [lia|]. unfold P. nia.
  - intros HMbig.
    destruct (Z_lt_le_dec G E) as [Hlt|Hge].
    + (* a finer quantum: the product is below the binade of x *)
      apply Z.le_trans with (PyFloat.scaled B 4503599627370496 E); [|apply scaled_le_mono; lia].
      apply (round_below_grid P eP G q' 4503599627370496 E); try assumption; try lia.
      rewrite HvalM. apply scaled_le_mono; [lia|].
      assert (HdP' : dP <= 52 - Es) by (unfold eP in *; lia).
      assert (2 ^ dP <= 2 ^ (52 - Es)) by (apply Z.pow_le_mono_r; lia).
      replace (52 - Es) with (52 + - Es) in H by lia.
      rewrite Z.pow_add_r in H by lia. change (2 ^ 52) with 4503599627370496 in H. lia.
    + (* the quantum of x: the product is below the midpoint under x *)
      assert (HGeq : G = E) by lia.
      assert (Hn : G - eP = - Es) by (unfold eP; lia).
      rewrite Hn in Hrange, Hdown.
      rewrite HGeq. apply scaled_le_mono; [lia|].
      assert (Hpos : 0 < 2 ^ (- Es)) by lia.
      pose proof (Z.div_mod P (2 ^ (- Es)) ltac:(lia)) as Hdm.
      pose proof (Z.mod_pos_bound P (2 ^ (- Es)) ltac:(lia)) as Hb.
      assert (Hmid : 2 * P < (2 * Z.pos M - 1) * 2 ^ (- Es)).
      { apply Z.lt_le_trans with ((2 * Z.pos M - 1) * 9007199254740992); [unfold P; nia|].
        apply Z.mul_le_mono_nonneg_l; lia. }
      set (q := P / 2 ^ (- Es)) in *. set (r := P mod 2 ^ (- Es)) in *.
      assert (Hq : q <= Z.pos M - 1).
      { destruct (Z_le_gt_dec q (Z.pos M - 1)) as [|Hgt]; [assumption|].
        assert (2 ^ (- Es) * Z.pos M <= 2 ^ (- Es) * q)
          by (apply Z.mul_le_mono_nonneg_l; lia).
        lia. }
      destruct (Z.eq_dec q (Z.pos M - 1)) as [Heq|Hne]; [|lia].
      rewrite Hdown; [lia|]. rewrite Heq in Hdm. lia.
  - intros HMeq HEgt.
    assert (HG1 : G <= E - 1).
    { assert (dP <= 52 - Es).
      { apply HdP; [lia|]. replace (52 - Es) with (52 + - Es) by lia.
        rewrite Z.pow_add_r by lia. change (2 ^ 52) with 4503599627370496. unfold P. nia. }
      unfold G. rewrite fexp_eq. unfold eP. lia. }
    split; [exact HG1|].
    apply (round_below_grid P eP G q' 9007199254740991 (E - 1));
      try assumption; try lia.
    replace (PyFloat.scaled B 9007199254740991 (E - 1))
      with (PyFloat.scaled B (9007199254740991 * 2 ^ (- Es - 1)) eP)
      by (rewrite scaled_shift by lia; f_equal; unfold eP; lia).
    apply scaled_le_mono; [lia|]. unfold P. rewrite HMeq. nia.
Qed.

Lemma pos_iter_xO (m d : positive) : Z.pos (Pos.iter xO m d) = Z.pos m * 2 ^ Z.pos d.
Proof using Type.
  induction d as [|d IH] using Pos.peano_ind.
  - cbn. lia.
  - rewrite Pos.iter_succ, Pos2Z.inj_xO, IH, Pos2Z.inj_succ, Z.pow_succ_r by lia. ring.
Qed.

Lemma shl_align_spec (mx : positive) (ex ex' : Z) :
  snd (shl_align mx ex ex') = Z.min ex ex' /\
  Z.pos (fst (shl_align mx ex ex')) = Z.pos mx * 2 ^ (ex - Z.min ex ex').
Proof using Type.
  unfold shl_align. destruct (ex' - ex) as [|d|d] eqn:Hd; cbn [fst snd].
  - replace (Z.min ex ex') with ex by lia. rewrite Z.sub_diag. cbn. lia.
  - replace (Z.min ex ex') with ex by lia. rewrite Z.sub_diag. cbn. lia.
  - replace (Z.min ex ex') with ex' by lia. split; [reflexivity|].
    rewrite pos_iter_xO. do 2 f_equal. lia.
Qed.

Lemma digits2_pos_shift (a mz : positive) (k : Z) :
  0 <= k -> Z.pos mz = Z.pos a * 2 ^ k ->
  Z.pos (digits2_pos mz) = Z.pos (digits2_pos a) + k.
Proof using Type.
  intros Hk Hmz. destruct (digits2_pos_bounds a) as [Hlo Hhi].
  assert (Hpk : 0 < 2 ^ k) by (apply Z.pow_pos_nonneg; lia).
  assert (Z.pos (digits2_pos mz) <= Z.pos (digits2_pos a) + k).
  { apply digits2_pos_le; [lia|]. rewrite Z.pow_add_r, Hmz by lia.
    apply Z.mul_lt_mono_pos_r; assumption. }
  assert (Z.pos (digits2_pos a) - 1 + k < Z.pos (digits2_pos mz)).
  { apply digits2_pos_gt. rewrite Z.pow_add_r, Hmz by lia.
    apply Z.mul_le_mono_nonneg_r; lia. }
  lia.
Qed.

(** The conversion of a positive integer, as a rounding: with d the number
    of bits of a, the mantissa a * 2^k / 2^n (one of k, n is 0) has 53
    bits and is kept or increased by one at the exponent d - 53. *)
Lemma of_int_round (a : positive) :
  let d := Z.pos (digits2_pos a) in
  let k := Z.max 0 (53 - d) in
  let n := Z.max 0 (d - 53) in
  let q := Z.pos a * 2 ^ k / 2 ^ n in
  exists q',
    q <= q' <= q + 1 /\
    (2 * (Z.pos a mod 2 ^ n) < 2 ^ n -> q' = q) /\
    4503599627370496 <= q < 9007199254740992 /\
    q * 2 ^ n <= Z.pos a * 2 ^ k /\
    binary_normalize 53 1024 (Z.pos a) 0 false =
      match q' with
      | Z.pos p =>
          if (p =? 9007199254740992)%positive then
            if d - 53 + 1 <=? 971 then S754_finite false 4503599627370496 (d - 53 + 1)
            else S754_infinity false
          else if d - 53 <=? 971 then S754_finite false p (d - 53) else S754_infinity false
      | _ => S754_zero false
      end.
Proof using Type.
  intros d k n q.
  destruct (digits2_pos_bounds a) as [Hlo Hhi]. fold d in Hlo, Hhi.
  assert (Hd : 1 <= d) by (unfold d; lia).
  unfold binary_normalize, binary_round.
  destruct (shl_align_spec a 0 (fexp 53 1024 (Z.pos (digits2_pos a) + 0))) as [Hez Hmz].
  destruct (shl_align a 0 (fexp 53 1024 (Z.pos (digits2_pos a) + 0))) as [mz ez].
  cbn [fst snd] in Hez, Hmz. fold d in Hez, Hmz.
  rewrite Z.add_0_r, fexp_eq in Hez, Hmz.
  assert (Hezk : ez = - k) by (unfold k; lia).
  replace (0 - Z.min 0 (Z.max (d - 53) (-1074))) with k in Hmz by (unfold k; lia).
  pose proof (digits2_pos_shift a mz k ltac:(unfold k; lia) Hmz) as Hdz. fold d in Hdz.
  destruct (binary_round_aux_spec mz ez) as (q' & Hrange & Hdown & Hq53 & _ & Hres).
  rewrite Hdz, fexp_eq in Hrange, Hdown, Hq53, Hres.
  replace (Z.max (Z.max (d + k + ez - 53) (-1074)) ez) with (d - 53)
    in Hrange, Hdown, Hq53, Hres by (unfold k in *; lia).
  replace (d - 53 - ez) with n in Hrange, Hdown, Hq53 by (unfold n, k in *; lia).
  rewrite Hmz in Hrange, Hdown, Hq53. fold q in Hrange, Hdown, Hq53.
  assert (Hpn : 0 < 2 ^ n) by (apply Z.pow_pos_nonneg; unfold n; lia).
  assert (Hpk : 0 < 2 ^ k) by (apply Z.pow_pos_nonneg; unfold k; lia).
  assert (Hfloor : q * 2 ^ n <= Z.pos a * 2 ^ k).
  { unfold q. rewrite Z.mul_comm. apply Z.mul_div_le. exact Hpn. }
  assert (Hq52 : 4503599627370496 <= q).
  { unfold q. apply Z.div_le_lower_bound; [exact Hpn|].
    change 4503599627370496 with (2 ^ 52).
    rewrite <- Z.pow_add_r by (unfold n; lia).
    apply Z.le_trans with (2 ^ (d - 1) * 2 ^ k);
      [|apply Z.mul_le_mono_nonneg_r; lia].
    rewrite <- Z.pow_add_r by (unfold k; lia).
    apply Z.pow_le_mono_r; unfold n, k; lia. }
  exists q'. split; [exact Hrange|]. split.
  { intros Hhalf. apply Hdown.
    destruct (Z_le_gt_dec d 53) as [Hsmall|Hbig].
    - replace n with 0 by (unfold n; lia). rewrite Z.pow_0_r, Z.mod_1_r. lia.
    - replace k with 0 by (unfold k; lia). now rewrite Z.pow_0_r, Z.mul_1_r. }
  split; [lia|]. split; [exact Hfloor|]. exact Hres.
Qed.

(** [int(...)] of a rounding result is the rounded mantissa shifted. *)
Lemma rounded_to_int (q' G : Z) :
  0 <= q' -> G <= 971 -> (q' = 9007199254740992 -> G + 1 <= 971) ->
  PyFloat.to_int
    match q' with
    | Z.pos p =>
        if (p =? 9007199254740992)%positive then
          if G + 1 <=? 971 then S754_finite false 4503599627370496 (G + 1)
          else S754_infinity false
        else if G <=? 971 then S754_finite false p G else S754_infinity false
    | _ => S754_zero false
    end = inr (Z.shiftl q' G).
Proof using Type.
  intros Hq HG Hcarry. destruct q' as [|p|p]; [| |lia].
  - cbn. now rewrite Z.shiftl_0_l.
  - destruct (Pos.eqb_spec p 9007199254740992) as [->|Hne].
    + replace (G + 1 <=? 971) with true by lia. cbn [PyFloat.to_int cond_Zopp].
      f_equal. replace (G + 1) with (1 + G) by lia.
      rewrite <- Z.shiftl_shiftl by lia. reflexivity.
    + replace (G <=? 971) with true by lia. reflexivity.
Qed.
End Scaled.

(** A valid float in [0, 1) is a zero, or positive with a mantissa of at
    most 53 bits and an exponent in -1074 .. -53. *)
Lemma slippage_in_unit_interval (s : spec_float) :
  valid_binary 53 1024 s = true ->
  PyFloat.leb PyFloat.zero s = true ->
  PyFloat.ltb s PyFloat.one = true ->
  (exists b, s = S754_zero b) \/
  (exists Ms Es, s = S754_finite false Ms Es /\
                 Z.pos Ms < 9007199254740992 /\ -1074 <= Es <= -53).
Proof.
  destruct s as [b|b| |b Ms Es]; intros Hvalid Hge Hlt.
  - left. now exists b.
  - destruct b; discriminate.
  - discriminate.
  - right. destruct b; [discriminate|]. exists Ms, Es. split; [reflexivity|].
    unfold valid_binary, bounded, canonical_mantissa in Hvalid.
    apply andb_true_iff in Hvalid as [Hcanon _].
    apply Z.eqb_eq in Hcanon. rewrite fexp_eq in Hcanon.
    destruct (digits2_pos_bounds Ms) as [Hlo Hhi].
    assert (Hd : Z.pos (digits2_pos Ms) <= 53) by lia.
    assert (HMs : Z.pos Ms < 9007199254740992).
    { assert (2 ^ Z.pos (digits2_pos Ms) <= 2 ^ 53) by (apply Z.pow_le_mono_r; lia).
      change (2 ^ 53) with 9007199254740992 in H. lia. }
    split; [exact HMs|]. split; [lia|].
    unfold PyFloat.ltb, PyFloat.one, SFltb, SFcompare in Hlt.
    destruct (Z.compare_spec Es (-52)) as [Heq|Hless|Hgt]; [|lia|discriminate].
    exfalso.
    assert (Z.pos (digits2_pos Ms) = 53) by lia.
    assert (Hc : (Ms ?= 4503599627370496)%positive = Lt).
    { unfold Pos.compare. destruct (Pos.compare_cont Eq Ms 4503599627370496); congruence. }
    assert (Z.pos Ms < 4503599627370496) by (apply Pos2Z.pos_lt_pos; exact Hc).
    rewrite H in Hlo. change (2 ^ (53 - 1)) with 4503599627370496 in Hlo. lia.
Qed.

(** The float of a positive integer a: a itself when a has at most 53
    bits; otherwise a float at most a, or one whose predecessor is at
    most a. *)
Lemma of_int_cases (a : positive) (x : spec_float) :
  PyFloat.of_int (Z.pos a) = inr x ->
  exists M E,
    x = S754_finite false M E /\
    Z.pos M < 9007199254740992 /\ -52 <= E <= 971 /\
    (PyFloat.scaled 1200 (Z.pos M) E <= PyFloat.scaled 1200 (Z.pos a) 0 \/
     (4503599627370496 < Z.pos M /\ PyFloat.scaled 1200 (Z.pos M - 1) E <= PyFloat.scaled 1200 (Z.pos a) 0) \/
     (Z.pos M = 4503599627370496 /\
      PyFloat.scaled 1200 9007199254740991 (E - 1) <= PyFloat.scaled 1200 (Z.pos a) 0)) /\
    (Z.pos a < 9007199254740992 ->
     exists k, 0 <= k /\ Z.pos M = Z.pos a * 2 ^ k /\ E = - k).
Proof.
  intros Hx.
  destruct (of_int_round a) as (q' & Hrange & Hdown & Hq & Hfloor & Hres).
  set (d := Z.pos (digits2_pos a)) in *.
  set (k := Z.max 0 (53 - d)) in *. set (n := Z.max 0 (d - 53)) in *.
  set (q := Z.pos a * 2 ^ k / 2 ^ n) in *.
  assert (Hd : 1 <= d) by (unfold d; lia).
  assert (Hk : 0 <= k <= 52) by (unfold k; lia).
  assert (Hn : 0 <= n) by (unfold n; lia).
  assert (Hkn : d - 53 = - k + n) by (unfold k, n; lia).
  assert (Hsmall : Z.pos a < 9007199254740992 ->
                   q' = q /\ q = Z.pos a * 2 ^ k /\ n = 0).
  { intros Ha. assert (d <= 53) by (apply digits2_pos_le; [lia | exact Ha]).
    assert (Hn0 : n = 0) by (unfold n; lia).
    split; [|split; [|exact Hn0]].
    - apply Hdown. rewrite Hn0, Z.pow_0_r, Z.mod_1_r. lia.
    - unfold q. now rewrite Hn0, Z.pow_0_r, Z.div_1_r. }
  assert (HB : 0 <= 1200) by lia.
  assert (Hqa : PyFloat.scaled 1200 q (d - 53) <= PyFloat.scaled 1200 (Z.pos a) 0).
  { rewrite Hkn, <- (scaled_shift 1200 HB q (- k) n) by lia.
    replace (PyFloat.scaled 1200 (Z.pos a) 0) with (PyFloat.scaled 1200 (Z.pos a * 2 ^ k) (- k))
      by (rewrite scaled_shift by lia; f_equal; lia).
    apply scaled_le_mono; lia. }
  clear Hdown Hfloor. clearbody q n k d.
  unfold PyFloat.of_int, PyFloat.prec, PyFloat.emax in Hx. rewrite Hres in Hx. clear Hres.
  destruct q' as [|p|p]; [lia| |lia].
  destruct (Pos.eqb_spec p 9007199254740992) as [->|Hne].
  - destruct (Z.leb_spec (d - 53 + 1) 971); [|discriminate].
    injection Hx as <-. exists 4503599627370496%positive, (d - 53 + 1).
    split; [reflexivity|]. split; [lia|]. split; [lia|]. split.
    + right. right. split; [reflexivity|].
      replace (d - 53 + 1 - 1) with (d - 53) by lia.
      replace 9007199254740991 with q by lia. exact Hqa.
    + intros Ha. destruct (Hsmall Ha) as (Hq' & _ & _). lia.
  - destruct (Z.leb_spec (d - 53) 971); [|discriminate].
    injection Hx as <-. exists p, (d - 53).
    split; [reflexivity|]. split; [lia|]. split; [lia|]. split.
    + destruct (Z.eq_dec (Z.pos p) q) as [->|Hneq]; [left; exact Hqa|].
      right. left. split; [lia|].
      replace (Z.pos p - 1) with q by lia. exact Hqa.
    + intros Ha. destruct (Hsmall Ha) as (Hq' & Hqa' & Hn0).
      exists k. rewrite Hn0 in Hkn. lia.
Qed.

(** The product of a positive float x = M * 2^E by a float in (0, 1),
    with a bound on x or on its predecessor: [int] of it is defined, not
    negative, and within the bound. *)
Lemma mul_to_int (M Ms : positive) (E Es bound : Z) :
  Z.pos M < 9007199254740992 -> -52 <= E <= 971 ->
  Z.pos Ms < 9007199254740992 -> -1074 <= Es <= -53 ->
  (PyFloat.scaled 1200 (Z.pos M) E <= PyFloat.scaled 1200 bound 0 \/
   (4503599627370496 < Z.pos M /\ PyFloat.scaled 1200 (Z.pos M - 1) E <= PyFloat.scaled 1200 bound 0) \/
   (Z.pos M = 4503599627370496 /\
    PyFloat.scaled 1200 9007199254740991 (E - 1) <= PyFloat.scaled 1200 bound 0)) ->
  exists q' G,
    PyFloat.to_int (PyFloat.mul (S754_finite false M E) (S754_finite false Ms Es))
      = inr (Z.shiftl q' G) /\
    0 <= Z.shiftl q' G <= bound /\
    E + Es <= G <= E /\
    Z.pos M * Z.pos Ms / 2 ^ (G - (E + Es)) <= q'
      <= Z.pos M * Z.pos Ms / 2 ^ (G - (E + Es)) + 1.
Proof.
  intros HM HE HMs HEs Hcases.
  assert (HB : 0 <= 1200) by lia.
  unfold PyFloat.mul, SFmul. cbn [xorb].
  destruct (binary_round_aux_spec (M * Ms) (E + Es))
    as (q' & Hrange & Hdown & _ & HGlo & Hres).
  unfold PyFloat.prec, PyFloat.emax. rewrite Hres. clear Hres.
  destruct (mul_round_bounds 1200 HB M Ms E Es q' ltac:(lia) ltac:(lia) ltac:(lia)
              ltac:(lia) ltac:(lia) Hrange Hdown) as (HGE & Hle & Hpred & Hcarry).
  assert (HGeP : E + Es <= Z.max (fexp 53 1024 (Z.pos (digits2_pos (M * Ms)) + (E + Es)))
                             (E + Es)) by lia.
  set (G := Z.max (fexp 53 1024 (Z.pos (digits2_pos (M * Ms)) + (E + Es))) (E + Es)) in *.
  clearbody G. clear Hdown.
  rewrite Pos2Z.inj_mul in Hrange.
  assert (Hq0 : 0 <= q').
  { assert (0 <= Z.pos M * Z.pos Ms / 2 ^ (G - (E + Es)))
      by (apply Z.div_pos; [lia | apply Z.pow_pos_nonneg; lia]).
    lia. }
  exists q', G.
  assert (Hbound : PyFloat.scaled 1200 q' G <= PyFloat.scaled 1200 bound 0).
  { clear Hrange.
    destruct Hcases as [Hc | [(HMbig & Hc) | (HMeq & Hc)]].
    - lia.
    - specialize (Hpred HMbig). lia.
    - destruct (Hcarry HMeq ltac:(lia)) as [_ Hc']. lia. }
  assert (Hnocarry : q' = 9007199254740992 -> G + 1 <= 971).
  { clear Hrange Hbound Hcases Hpred Hcarry. intros ->.
    destruct (Z_lt_le_dec G E) as [|Hge]; [lia|exfalso].
    assert (G = E) by lia. subst G.
    apply scaled_le_cancel in Hle; lia. }
  rewrite rounded_to_int by (assumption || lia).
  split; [reflexivity|]. split; [|split; [lia | exact Hrange]].
  split; [apply Z.shiftl_nonneg; exact Hq0|].
  apply (scaled_le_int 1200 HB); [exact Hq0 | lia | exact Hbound].
Qed.

(** [int(a * s)] for a positive integer a that converts to a float and a
    float s in (0, 1): it is defined and lies in 0 .. a; when a has at
    most 53 bits it is the floor of the exact product or one more. *)
Lemma int_mul_to_int (a Ms : positive) (Es : Z) (x : spec_float) :
  PyFloat.of_int (Z.pos a) = inr x ->
  Z.pos Ms < 9007199254740992 -> -1074 <= Es <= -53 ->
  exists cut,
    PyFloat.to_int (PyFloat.mul x (S754_finite false Ms Es)) = inr cut /\
    0 <= cut <= Z.pos a /\
    (Z.pos a < 9007199254740992 ->
     Z.shiftl (Z.pos a * Z.pos Ms) Es <= cut <= Z.shiftl (Z.pos a * Z.pos Ms) Es + 1).
Proof.
  intros Hx HMs HEs.
  destruct (of_int_cases a x Hx) as (M & E & -> & HM & HE & Hcases & Hsmall).
  destruct (mul_to_int M Ms E Es (Z.pos a) HM HE HMs HEs Hcases)
    as (q' & G & Hint & Hcut & HG & Hrange).
  exists (Z.shiftl q' G). split; [exact Hint|]. split; [exact Hcut|].
  intros Ha. destruct (Hsmall Ha) as (k & Hk & HMa & HEk). clear Hsmall Hcases Hint Hcut.
  subst E. rewrite HMa in Hrange. clear HMa HM.
  assert (HG0 : G <= 0) by lia.
  assert (Hpk : 0 < 2 ^ k) by (apply Z.pow_pos_nonneg; lia).
  assert (Hpu : 0 < 2 ^ (- G)) by (apply Z.pow_pos_nonneg; lia).
  assert (Hpv : 0 < 2 ^ (G - (- k + Es))) by (apply Z.pow_pos_nonneg; lia).
  rewrite !Z.shiftl_div_pow2 by lia.
  assert (HF : Z.pos a * 2 ^ k * Z.pos Ms / 2 ^ (G - (- k + Es)) / 2 ^ (- G)
               = Z.pos a * Z.pos Ms / 2 ^ (- Es)).
  { rewrite Z.div_div by lia.
    rewrite <- Z.pow_add_r by lia.
    replace (G - (- k + Es) + - G) with (- Es + k) by lia.
    rewrite Z.pow_add_r by lia.
    replace (Z.pos a * 2 ^ k * Z.pos Ms) with (Z.pos a * Z.pos Ms * 2 ^ k) by ring.
    apply Z.div_mul_cancel_r; lia. }
  rewrite <- HF. clear HF.
  set (qP := Z.pos a * 2 ^ k * Z.pos Ms / 2 ^ (G - (- k + Es))) in *. clearbody qP.
  split.
  + apply Z.div_le_mono; lia.
  + apply Z.le_trans with ((qP + 1 * 2 ^ (- G)) / 2 ^ (- G)).
    * apply Z.div_le_mono; lia.
    * rewrite Z.div_add by lia. lia.
Qed.

(** Integers below 2^1024 - 2^970 convert to a float. *)
Lemma of_int_total (a : positive) :
  Z.pos a < 2 ^ 1024 - 2 ^ 970 -> exists x, PyFloat.of_int (Z.pos a) = inr x.
Proof.
  intros Ha.
  destruct (of_int_round a) as (q' & Hrange & Hdown & Hq & Hfloor & Hres).
  set (d := Z.pos (digits2_pos a)) in *.
  assert (H970 : 0 < 2 ^ 970) by (apply Z.pow_pos_nonneg; lia).
  assert (H971 : 2 ^ 971 = 2 * 2 ^ 970) by (apply (Z.pow_succ_r 2 970); lia).
  assert (H1024 : 2 ^ 1024 = 9007199254740992 * 2 ^ 971) by (apply (Z.pow_add_r 2 53 971); lia).
  assert (Hd : d <= 1024) by (apply digits2_pos_le; lia).
  unfold PyFloat.of_int, PyFloat.prec, PyFloat.emax. rewrite Hres. clear Hres.
  destruct q' as [|p|p]; [lia| |lia].
  destruct (Pos.eqb_spec p 9007199254740992) as [->|Hne].
  - destruct (Z.leb_spec (d - 53 + 1) 971); [eauto|exfalso].
    assert (Hd' : d = 1024) by lia.
    rewrite Hd' in Hdown, Hfloor, Hrange, Hq.
    change (Z.max 0 (1024 - 53)) with 971 in *.
    change (Z.max 0 (53 - 1024)) with 0 in *.
    rewrite Z.pow_0_r, Z.mul_1_r in *.
    pose proof (Z.div_mod (Z.pos a) (2 ^ 971) ltac:(lia)) as Hdm.
    assert (9007199254740992 = Z.pos a / 2 ^ 971); [|lia].
    apply Hdown. lia.
  - destruct (Z.leb_spec (d - 53) 971); [eauto|lia].
Qed.

(** C2, as the code has it: for every amount that converts to a float
    (0 < amount < 2^1024 - 2^970) and every slippage in [0, 1),
    [amount - int(amount * slippage)] is defined and lies in 0 .. amount;
    it is amount - floor(amount * slippage), or one less, when the amount
    is below 2^53. *)
Theorem amount_with_slippage_rounded (a : Z) (s : spec_float) :
  0 < a -> a < 2 ^ 1024 - 2 ^ 970 ->
  valid_binary 53 1024 s = true ->
  PyFloat.leb PyFloat.zero s = true ->
  PyFloat.ltb s PyFloat.one = true ->
  exists r,
    StargateBridgeHelper.amount_with_slippage a s = inr r /\
    0 <= r <= a /\
    (a < 2 ^ 53 ->
     StargateBridgeHelper.spec_amount_with_slippage a s - 1 <= r
       <= StargateBridgeHelper.spec_amount_with_slippage a s).
Proof.
  intros Ha0 Hamax Hvalid Hge Hlt.
  destruct a as [|a|a]; try lia.
  destruct (of_int_total a Hamax) as [x Hx].
  unfold StargateBridgeHelper.amount_with_slippage, PyFloat.int_mul,
    StargateBridgeHelper.spec_amount_with_slippage.
  rewrite Hx.
  destruct (slippage_in_unit_interval s Hvalid Hge Hlt)
    as [[b ->] | (Ms & Es & -> & HMs & HEs)].
  - destruct (of_int_cases a x Hx) as (M & E & -> & _).
    cbn. exists (Z.pos a). split; [reflexivity|]. lia.
  - destruct (int_mul_to_int a Ms Es x Hx HMs HEs) as (cut & -> & Hcut & Hfloor).
    exists (Z.pos a - cut). split; [reflexivity|]. split; [lia|].
    intros Hsmall. change (2 ^ 53) with 9007199254740992 in Hsmall.
    specialize (Hfloor Hsmall). cbn [StargateBridgeHelper.floor_mul cond_Zopp]. lia.
Qed.

(** C2 fails on the code as an equality.  With amount 10 and the float
    0x1.6666666666666p-1 (Python's 0.7, a number below 7/10) the product
    rounds to 7.0 and the code keeps 3, where 10 - floor(10 * s) is 4.
    With amount 100 and Python's 0.29 the product is 28.999999999999996
    and the code keeps 72, where 100 - floor(100 * 29/100) is 71. *)
Lemma amount_with_slippage_is_not_floor :
  valid_binary 53 1024 Mock.seven_tenths = true /\
  PyFloat.leb PyFloat.zero Mock.seven_tenths = true /\
  PyFloat.ltb Mock.seven_tenths PyFloat.one = true /\
  StargateBridgeHelper.amount_with_slippage 10 Mock.seven_tenths = inr 3 /\
  StargateBridgeHelper.spec_amount_with_slippage 10 Mock.seven_tenths = 4 /\
  StargateBridgeHelper.amount_with_slippage 10 Mock.seven_tenths <>
    inr (StargateBridgeHelper.spec_amount_with_slippage 10 Mock.seven_tenths) /\
  StargateBridgeHelper.amount_with_slippage 100 Mock.twenty_nine_hundredths = inr 72 /\
  100 - (100 * 29) / 100 = 71.
Proof. repeat split; try reflexivity. vm_compute. discriminate. Qed.

(** C2 at amount 10 and Python's 0.7: the code keeps 3, one less than
    10 - floor(10 * s) = 4. *)
Lemma amount_with_slippage_rounded_witness :
  exists r,
    StargateBridgeHelper.amount_with_slippage 10 Mock.seven_tenths = inr r /\
    0 <= r <= 10 /\
    (10 < 2 ^ 53 ->
     StargateBridgeHelper.spec_amount_with_slippage 10 Mock.seven_tenths - 1 <= r
       <= StargateBridgeHelper.spec_amount_with_slippage 10 Mock.seven_tenths).
Proof.
  apply (amount_with_slippage_rounded 10 Mock.seven_tenths);
    [lia | reflexivity | reflexivity | reflexivity | reflexivity].
Defined.

(** ** Outcomes of the steps, whatever they are *)

Section Outcomes.
Context {chain : Type}.
Variable K : StargateConstants.t chain.
Variable W3 : Web3.t.
Implicit Types (c : chain) (self : StargateBridgeHelper.t chain).

Abbreviation src_of self := (StargateBridgeHelper.src_network self).
Abbreviation dst_of self := (StargateBridgeHelper.dst_network self).
Abbreviation token_of self :=
  (Stablecoin.contract_address (StargateBridgeHelper.src_stablecoin self)).
Abbreviation me_of self := (LocalAccount.address (StargateBridgeHelper.account self)).
Abbreviation key_of self := (LocalAccount.key (StargateBridgeHelper.account self)).
Abbreviation router_of self :=
  (EVMNetwork.stargate_router_address (StargateBridgeHelper.src_network self)).
Abbreviation quote_args dst dst_address :=
  [PInt (EVMNetwork.stargate_chain_id dst); PInt 1; PStr dst_address; PStr "0x";
   PList [PInt 0; PInt 0; PStr "0x"]].

(** The fee estimate, call by call. *)
Lemma estimate_fee_run (src dst : EVMNetwork.t chain) dst_address c :
  StargateUtils.estimate_layerzero_swap_fee W3 src dst dst_address c =
    match Web3.to_checksum_address W3 (EVMNetwork.stargate_router_address src) with
    | inl e => (inl e, c, [])
    | inr contract =>
        match EVMNetwork.quoteLayerZeroFee src contract (quote_args dst dst_address) c with
        | (inl e, c1) =>
            (inl e, c1, [EvQuoteLayerZeroFee contract (quote_args dst dst_address)])
        | (inr [], c1) =>
            (inl IndexError, c1, [EvQuoteLayerZeroFee contract (quote_args dst dst_address)])
        | (inr (fee :: _), c1) =>
            (inr fee, c1, [EvQuoteLayerZeroFee contract (quote_args dst dst_address)])
        end
    end.
Proof.
  unfold StargateUtils.estimate_layerzero_swap_fee. run_monad.
  destruct (Web3.to_checksum_address W3 _) as [e|contract]; [reflexivity|].
  destruct (EVMNetwork.quoteLayerZeroFee src contract _ c) as [[e|[|fee rest]] c1];
    reflexivity.
Qed.

(** X1: the fee estimate talks to the network at most once, by a quote
    for message type 1 with an empty payload and no extra gas on the
    checksummed router address; it submits nothing and logs nothing.  A
    router address that fails the checksum conversion raises before any
    call; a quote with no field raises [IndexError]; otherwise the first
    field is returned, whatever follows it. *)
Theorem fee_estimate_outcome (src dst : EVMNetwork.t chain) dst_address c r c' evs :
  StargateUtils.estimate_layerzero_swap_fee W3 src dst dst_address c = (r, c', evs) ->
  (length evs <= 1)%nat /\
  transactions evs = [] /\
  List.filter is_log evs = [] /\
  (forall ev, List.In ev evs ->
     exists contract,
       Web3.to_checksum_address W3 (EVMNetwork.stargate_router_address src) = inr contract /\
       ev = EvQuoteLayerZeroFee contract (quote_args dst dst_address)) /\
  (forall e,
     Web3.to_checksum_address W3 (EVMNetwork.stargate_router_address src) = inl e ->
     r = inl e /\ c' = c /\ evs = []) /\
  (forall contract,
     Web3.to_checksum_address W3 (EVMNetwork.stargate_router_address src) = inr contract ->
     (forall c1,
        EVMNetwork.quoteLayerZeroFee src contract (quote_args dst dst_address) c = (inr [], c1) ->
        r = inl IndexError) /\
     (forall fee rest c1,
        EVMNetwork.quoteLayerZeroFee src contract (quote_args dst dst_address) c
          = (inr (fee :: rest), c1) ->
        r = inr fee /\ c' = c1)).
Proof.
  rewrite estimate_fee_run.
  destruct (Web3.to_checksum_address W3 _) as [e|contract].
  - intros [= <- <- <-].
    split; [cbn; lia|]. split; [reflexivity|]. split; [reflexivity|].
    split; [intros ev []|]. split.
    + intros e' [= <-]. auto.
    + intros contract [=].
  - destruct (EVMNetwork.quoteLayerZeroFee src contract _ c)
      as [[e|[|fee rest]] c1] eqn:Hq;
      intros [= <- <- <-];
      (split; [cbn; lia|]); (split; [reflexivity|]); (split; [reflexivity|]);
      (split; [intros ev [<-|[]]; eauto|]);
      (split; [intros e' [=]|]);
      intros contract' [= <-]; rewrite Hq; split; intros; try split; congruence.
Qed.

(** [make_bridge], step by step. *)
Lemma make_bridge_run self c :
  StargateBridgeHelper.make_bridge K W3 self c =
    match StargateBridgeHelper._is_bridge_possible K W3 self c with
    | (inl e, c1, ev1) => (inl e, c1, ev1)
    | (inr false, c1, ev1) => (inr (Some false), c1, ev1)
    | (inr true, c1, ev1) =>
        match StargateBridgeHelper._approve_stablecoin_usage self
                (StargateBridgeHelper.amount self) c1 with
        | (inl e, c2, ev2) => (inl e, c2, ev1 ++ ev2)
        | (inr _, c2, ev2) =>
            match StargateBridgeHelper._send_swap_transaction K W3 self c2 with
            | (inl e, c3, ev3) => (inl e, c3, ev1 ++ ev2 ++ ev3)
            | (inr tx_hash, c3, ev3) =>
                match EVMNetwork.wait_for_transaction (src_of self) tx_hash c3 with
                | (inl e, c4) =>
                    (inl e, c4, ev1 ++ ev2 ++ ev3 ++ [EvWaitForTransaction tx_hash])
                | (inr result, c4) =>
                    let '(r, c5, ev5) :=
                      StargateBridgeHelper._check_tx_result result "Stargate swap" c4 in
                    (match r with inl e => inl e | inr _ => inr None end, c5,
                     ev1 ++ ev2 ++ ev3 ++ [EvWaitForTransaction tx_hash] ++ ev5)
                end
            end
        end
    end.
Proof.
  unfold StargateBridgeHelper.make_bridge.
  destruct (StargateBridgeHelper._is_bridge_possible K W3 self c)
    as [[[e|[|]] c1] ev1] eqn:H1.
  - now rewrite (run_bind_inl _ _ _ _ _ _ H1).
  - rewrite (run_bind_inr _ _ _ _ _ _ H1). cbn [negb].
    destruct (StargateBridgeHelper._approve_stablecoin_usage self _ c1)
      as [[[e|[]] c2] ev2] eqn:H2.
    { now rewrite (run_bind_inl _ _ _ _ _ _ H2). }
    rewrite (run_bind_inr _ _ _ _ _ _ H2).
    destruct (StargateBridgeHelper._send_swap_transaction K W3 self c2)
      as [[[e|tx_hash] c3] ev3] eqn:H3.
    { now rewrite (run_bind_inl _ _ _ _ _ _ H3). }
    rewrite (run_bind_inr _ _ _ _ _ _ H3).
    destruct (EVMNetwork.wait_for_transaction (src_of self) tx_hash c3)
      as [[e|result] c4] eqn:H4.
    { now rewrite (run_bind_inl _ _ _ _ _ _ (run_call_inr _ _ _ _ _ H4)). }
    rewrite (run_bind_inr _ _ _ _ _ _ (run_call_inr _ _ _ _ _ H4)).
    destruct (StargateBridgeHelper._check_tx_result _ _ _) as [[[e|[]] c5] ev5] eqn:H5.
    + now rewrite (run_bind_inl _ _ _ _ _ _ H5).
    + rewrite (run_bind_inr _ _ _ _ _ _ H5). cbn. now rewrite app_nil_r.
  - rewrite (run_bind_inr _ _ _ _ _ _ H1). cbn. now rewrite app_nil_r.
Qed.

(** The approval step submits nothing or one approval of the amount asked,
    and never asks for a fee quote. *)
Lemma approve_transactions self amount c r c' evs :
  StargateBridgeHelper._approve_stablecoin_usage self amount c = (r, c', evs) ->
  (transactions evs = [] \/
   transactions evs =
     [EvApproveTokenUsage (key_of self) (token_of self) (router_of self) amount]) /\
  List.filter is_quote evs = [].
Proof.
  unfold StargateBridgeHelper._approve_stablecoin_usage,
    StargateBridgeHelper._check_tx_result.
  run_monad. intros H. repeat case_match; simplify_eq; cbn; auto.
Qed.

(** The swap submission submits nothing or one signed [swap] call. *)
Lemma send_swap_transactions self c r c' evs :
  StargateBridgeHelper._send_swap_transaction K W3 self c = (r, c', evs) ->
  transactions evs = [] \/
  exists raw,
    transactions evs = [EvSendRawTransaction raw] /\
    signer raw = key_of self /\
    fn_name (tx_call (signed raw)) = "swap".
Proof.
  unfold StargateBridgeHelper._send_swap_transaction.
  unfold mbind, M_bind, bind at 1 2. unfold lift at 1. intros H.
  destruct (Web3.to_checksum_address W3 _) as [e|contract]; [simplify_eq; cbn; auto|].
  destruct (StargateUtils.estimate_layerzero_swap_fee _ _ _ _ _) as [[[e|fee] c1] ev1] eqn:Hf;
    apply estimate_fee_events in Hf as [Hf _].
  all: unfold transactions in *.
  { simplify_eq. cbn. rewrite Hf. auto. }
  run_monad.
  repeat case_match; simplify_eq; cbn;
    rewrite ?List.filter_app, ?Hf; cbn; eauto.
Qed.

Lemma in_transactions (ev : Event) (evs : list Event) :
  List.In ev evs -> is_state_changing ev = true -> List.In ev (transactions evs).
Proof. intros Hin Hsc. apply List.filter_In. auto. Qed.

(** X2: a native-balance check or a stablecoin-balance read that raises
    makes [make_bridge] raise the same exception, nothing having been
    submitted. *)
Theorem make_bridge_raises_with_feasibility self c e c' evs :
  StargateUtils.is_enough_native_token_balance_for_stargate_swap_fee K W3
    (src_of self) (dst_of self) (me_of self) c = (inl e, c', evs) \/
  (exists c1 ev1,
      StargateUtils.is_enough_native_token_balance_for_stargate_swap_fee K W3
        (src_of self) (dst_of self) (me_of self) c = (inr true, c1, ev1) /\
      EVMNetwork.get_token_balance (src_of self) (token_of self) (me_of self) c1
        = (inl e, c') /\
      evs = ev1 ++ [EvGetTokenBalance (token_of self) (me_of self)]) ->
  StargateBridgeHelper.make_bridge K W3 self c = (inl e, c', evs) /\
  transactions evs = [].
Proof.
  intros Hraise.
  assert (Hposs : StargateBridgeHelper._is_bridge_possible K W3 self c = (inl e, c', evs)).
  { unfold StargateBridgeHelper._is_bridge_possible.
    destruct Hraise as [H | (c1 & ev1 & H1 & H2 & ->)].
    - now rewrite (run_bind_inl _ _ _ _ _ _ H).
    - rewrite (run_bind_inr _ _ _ _ _ _ H1). cbn [negb].
      now rewrite (run_bind_inl _ _ _ _ _ _ (run_call_inr _ _ _ _ _ H2)). }
  split.
  - rewrite make_bridge_run, Hposs. reflexivity.
  - eapply is_bridge_possible_events, Hposs.
Qed.

(** X3: an approval step that raises (its transaction failed or was not
    found, or a call of the network raised) makes [make_bridge] raise the
    same exception; no swap has been submitted and the nonce has not been
    read. *)
Theorem make_bridge_stops_at_failed_approval self c c1 ev1 e c2 ev2 :
  StargateBridgeHelper._is_bridge_possible K W3 self c = (inr true, c1, ev1) ->
  StargateBridgeHelper._approve_stablecoin_usage self (StargateBridgeHelper.amount self) c1
    = (inl e, c2, ev2) ->
  StargateBridgeHelper.make_bridge K W3 self c = (inl e, c2, ev1 ++ ev2) /\
  (forall raw, ~ List.In (EvSendRawTransaction raw) (ev1 ++ ev2)).
Proof.
  intros H1 H2. split.
  - rewrite make_bridge_run, H1, H2. reflexivity.
  - intros raw Hin. apply in_transactions in Hin; [|reflexivity].
    rewrite transactions_app, (is_bridge_possible_events _ _ _ _ _ _ _ H1) in Hin.
    destruct (approve_transactions _ _ _ _ _ _ H2) as [[Ht | Ht] _];
      rewrite Ht in Hin; cbn in Hin; intuition discriminate.
Qed.

(** X4: whatever its outcome, [make_bridge] submits at most an approval of
    the amount followed by at most one swap: never two approvals, never
    two swaps, never an approval after the swap. *)
Theorem make_bridge_transactions_in_order self c r c' evs :
  StargateBridgeHelper.make_bridge K W3 self c = (r, c', evs) ->
  exists approvals swaps,
    transactions evs = approvals ++ swaps /\
    (approvals = [] \/
     approvals = [EvApproveTokenUsage (key_of self) (token_of self) (router_of self)
                    (StargateBridgeHelper.amount self)]) /\
    (swaps = [] \/
     exists raw, swaps = [EvSendRawTransaction raw] /\
                 signer raw = key_of self /\ fn_name (tx_call (signed raw)) = "swap").
Proof.
  rewrite make_bridge_run.
  destruct (StargateBridgeHelper._is_bridge_possible K W3 self c)
    as [[[e|[|]] c1] ev1] eqn:H1;
    pose proof (is_bridge_possible_events _ _ _ _ _ _ _ H1) as Hno1.
  1, 3: intros [= <- <- <-]; exists [], []; rewrite Hno1; auto.
  destruct (StargateBridgeHelper._approve_stablecoin_usage self _ c1)
    as [[[e|[]] c2] ev2] eqn:H2;
    destruct (approve_transactions _ _ _ _ _ _ H2) as [Hta _].
  { intros [= <- <- <-]. exists (transactions ev2), [].
    rewrite transactions_app, Hno1, app_nil_r. auto. }
  destruct (StargateBridgeHelper._send_swap_transaction K W3 self c2)
    as [[[e|tx_hash] c3] ev3] eqn:H3;
    pose proof (send_swap_transactions _ _ _ _ _ H3) as Hts.
  { intros [= <- <- <-]. exists (transactions ev2), (transactions ev3).
    rewrite !transactions_app, Hno1. auto. }
  assert (Hrest : forall rest, transactions rest = [] ->
            exists approvals swaps,
              transactions (ev1 ++ ev2 ++ ev3 ++ rest) = approvals ++ swaps /\
              (approvals = [] \/
               approvals = [EvApproveTokenUsage (key_of self) (token_of self)
                              (router_of self) (StargateBridgeHelper.amount self)]) /\
              (swaps = [] \/
               exists raw, swaps = [EvSendRawTransaction raw] /\
                           signer raw = key_of self /\
                           fn_name (tx_call (signed raw)) = "swap")).
  { intros rest Hrest. exists (transactions ev2), (transactions ev3).
    rewrite !transactions_app, Hno1, Hrest, app_nil_r. auto. }
  destruct (EVMNetwork.wait_for_transaction (src_of self) tx_hash c3) as [[e|result] c4].
  { intros [= <- <- <-]. apply Hrest. reflexivity. }
  destruct (StargateBridgeHelper._check_tx_result _ _ _) as [[r5 c5] ev5] eqn:H5.
  apply check_tx_result_no_tx in H5 as [_ Hno5].
  intros [= <- <- <-]. apply Hrest. cbn. exact Hno5.
Qed.

(** An approval step that returns read the allowance, and submitted the
    approval exactly when the allowance was short. *)
Lemma approve_ok_inv self amount c c' evs :
  StargateBridgeHelper._approve_stablecoin_usage self amount c = (inr tt, c', evs) ->
  exists allowance c1,
    EVMNetwork.get_token_allowance (src_of self) (token_of self) (me_of self) (router_of self) c
      = (inr allowance, c1) /\
    transactions evs =
      (if allowance >=? amount then []
       else [EvApproveTokenUsage (key_of self) (token_of self) (router_of self) amount]).
Proof.
  intros H.
  destruct (EVMNetwork.get_token_allowance (src_of self) (token_of self) (me_of self)
              (router_of self) c) as [[e|allowance] c1] eqn:Hal.
  { unfold StargateBridgeHelper._approve_stablecoin_usage in H.
    rewrite (run_bind_inl _ _ _ _ _ _ (run_call_inr _ _ _ _ _ Hal)) in H. discriminate. }
  exists allowance, c1. split; [reflexivity|].
  destruct (Z.geb_spec allowance amount) as [Hge|Hlt].
  - rewrite (approve_run_enough _ _ _ _ _ Hal) in H by lia. now simplify_eq.
  - rewrite (approve_run_short _ _ _ _ _ Hal) in H by lia.
    repeat case_match; simplify_eq.
    match goal with Hc : StargateBridgeHelper._check_tx_result _ _ _ = _ |- _ =>
      apply check_tx_result_no_tx in Hc as [_ Hc] end.
    unfold transactions in *. rewrite List.filter_app. cbn.
    match goal with Hc : List.filter _ _ = [] |- _ => now rewrite Hc end.
Qed.

(** A swap submission that returns submitted one signed [swap] call. *)
Lemma send_swap_ok_transactions self c tx_hash c' evs :
  StargateBridgeHelper._send_swap_transaction K W3 self c = (inr tx_hash, c', evs) ->
  exists raw,
    transactions evs = [EvSendRawTransaction raw] /\
    signer raw = key_of self /\
    fn_name (tx_call (signed raw)) = "swap".
Proof.
  intros H.
  apply send_swap_inv in H
    as (contract & fee & c1 & ev1 & nonce & c2 & gp & c3 & min_amount & gas & c4 &
        _ & Hfee & _ & _ & _ & _ & ->).
  apply estimate_fee_events in Hfee as [Hfee _].
  eexists. rewrite transactions_app, Hfee. cbn. split; [reflexivity|]. split; reflexivity.
Qed.

(** X5: a bridge that completes passed the feasibility check and submitted
    the approval exactly when the allowance read after that check was
    below the amount, then one signed [swap] call, in this order, and
    nothing else. *)
Theorem completed_bridge_transactions self c c' evs :
  StargateBridgeHelper.make_bridge K W3 self c = (inr None, c', evs) ->
  exists c1 ev1 allowance c1' raw,
    StargateBridgeHelper._is_bridge_possible K W3 self c = (inr true, c1, ev1) /\
    EVMNetwork.get_token_allowance (src_of self) (token_of self) (me_of self)
      (router_of self) c1 = (inr allowance, c1') /\
    transactions evs =
      (if allowance >=? StargateBridgeHelper.amount self then []
       else [EvApproveTokenUsage (key_of self) (token_of self) (router_of self)
               (StargateBridgeHelper.amount self)])
      ++ [EvSendRawTransaction raw] /\
    signer raw = key_of self /\
    fn_name (tx_call (signed raw)) = "swap".
Proof.
  intros H. apply make_bridge_inv in H as [[H _] | [_ H]]; [discriminate|].
  destruct H as (c1 & ev1 & c2 & ev2 & tx_hash & c3 & ev3 & result & ev5 &
                 H1 & H2 & H3 & _ & H5 & ->).
  destruct (approve_ok_inv _ _ _ _ _ H2) as (allowance & c1' & Hal & Hta).
  destruct (send_swap_ok_transactions _ _ _ _ _ H3) as (raw & Hts & Hsig & Hfn).
  apply check_tx_result_no_tx in H5 as [_ H5].
  exists c1, ev1, allowance, c1', raw.
  split; [exact H1|]. split; [exact Hal|]. split; [|auto].
  rewrite !transactions_app, (is_bridge_possible_events _ _ _ _ _ _ _ H1), Hta, Hts, H5.
  cbn. now destruct (allowance >=? StargateBridgeHelper.amount self).
Qed.

(** X6: what the feasibility check decides.  It returns once the balance,
    the gas cost and the relay fee were read.  With a balance of at most
    gas cost plus relay fee it returns false and the stablecoin balance is
    never read; otherwise the stablecoin balance is read and the answer is
    whether the amount is at most that balance, equality included. *)
Theorem bridge_possible_decides self c b c' evs :
  StargateBridgeHelper._is_bridge_possible K W3 self c = (inr b, c', evs) ->
  exists balance c1 gas_cost c2 ev2 relay_fee c3 ev3,
    EVMNetwork.get_balance (src_of self) (me_of self) c = (inr balance, c1) /\
    StargateUtils.estimate_swap_gas_price K (src_of self) c1 = (inr gas_cost, c2, ev2) /\
    StargateUtils.estimate_layerzero_swap_fee W3 (src_of self) (dst_of self) (me_of self) c2
      = (inr relay_fee, c3, ev3) /\
    ((balance <= gas_cost + relay_fee /\ b = false /\ c' = c3 /\
      evs = EvGetBalance (me_of self) :: ev2 ++ ev3) \/
     (gas_cost + relay_fee < balance /\
      exists stablecoin_balance,
        EVMNetwork.get_token_balance (src_of self) (token_of self) (me_of self) c3
          = (inr stablecoin_balance, c') /\
        b = (StargateBridgeHelper.amount self <=? stablecoin_balance) /\
        evs = (EvGetBalance (me_of self) :: ev2 ++ ev3)
              ++ [EvGetTokenBalance (token_of self) (me_of self)])).
Proof.
  unfold StargateBridgeHelper._is_bridge_possible. intros H.
  destruct (StargateUtils.is_enough_native_token_balance_for_stargate_swap_fee K W3
              (src_of self) (dst_of self) (me_of self) c) as [[[e|enough] c3] evn] eqn:Hn.
  { rewrite (run_bind_inl _ _ _ _ _ _ Hn) in H. discriminate. }
  rewrite (run_bind_inr _ _ _ _ _ _ Hn) in H.
  apply native_check_inv in Hn
    as (balance & c1 & gas_cost & c2 & ev2 & relay_fee & ev3 & Hb & Hg & Hf & -> & ->).
  exists balance, c1, gas_cost, c2, ev2, relay_fee, c3, ev3.
  split; [exact Hb|]. split; [exact Hg|]. split; [exact Hf|].
  destruct (Z.gtb_spec balance (gas_cost + relay_fee)) as [Hgt|Hle]; cbn [negb] in H.
  - right. split; [lia|].
    destruct (EVMNetwork.get_token_balance (src_of self) (token_of self) (me_of self) c3)
      as [[e|sb] c4] eqn:Ht.
    { rewrite (run_bind_inl _ _ _ _ _ _ (run_call_inr _ _ _ _ _ Ht)) in H. discriminate. }
    rewrite (run_bind_inr _ _ _ _ _ _ (run_call_inr _ _ _ _ _ Ht)) in H.
    exists sb.
    destruct (Z.ltb_spec sb (StargateBridgeHelper.amount self)) as [Hlt|Hge];
      cbn in H; simplify_eq; (split; [reflexivity|]); split; try reflexivity; lia.
  - left. cbn in H. simplify_eq. rewrite app_nil_r. repeat split; lia.
Qed.

(** X7: the dictionary of the submitted swap transaction.  Its nonce is
    the nonce read before the gas parameters; an entry of the gas
    parameters under another key is in the transaction as it was read,
    also under ['from'], ['value'] or ['gas']; a key the gas parameters do
    not name holds the sender, the quoted fee or the drawn gas limit, and
    no further key exists. *)
Theorem swap_transaction_dictionary self c tx_hash c' evs raw :
  StargateBridgeHelper._send_swap_transaction K W3 self c = (inr tx_hash, c', evs) ->
  List.In (EvSendRawTransaction raw) evs ->
  exists layerzero_fee c1 ev1 nonce c2 gas_params c3 gas c4,
    StargateUtils.estimate_layerzero_swap_fee W3 (src_of self) (dst_of self) (me_of self) c
      = (inr layerzero_fee, c1, ev1) /\
    EVMNetwork.get_nonce (src_of self) (me_of self) c1 = (inr nonce, c2) /\
    EVMNetwork.get_transaction_gas_params (src_of self) c2 = (inr gas_params, c3) /\
    StargateConstants.get_randomized_swap_gas_limit K (EVMNetwork.name (src_of self)) c3
      = (inr gas, c4) /\
    tx_params (signed raw) !! "nonce" = Some (PInt nonce) /\
    (forall k v, k <> "nonce" -> gas_params !! k = Some v ->
                 tx_params (signed raw) !! k = Some v) /\
    (forall k, k <> "nonce" -> gas_params !! k = None ->
               tx_params (signed raw) !! k =
                 if String.eqb k "from" then Some (PStr (me_of self))
                 else if String.eqb k "value" then Some (PInt layerzero_fee)
                 else if String.eqb k "gas" then Some (PInt gas)
                 else None).
Proof.
  intros H Hin.
  apply send_swap_inv in H
    as (contract & fee & c1 & ev1 & nonce & c2 & gp & c3 & min_amount & gas & c4 &
        _ & Hfee & Hnonce & Hgp & _ & Hgas & ->).
  exists fee, c1, ev1, nonce, c2, gp, c3, gas, c4.
  split; [exact Hfee|]. split; [exact Hnonce|]. split; [exact Hgp|]. split; [exact Hgas|].
  assert (Hraw : raw =
            {| signed :=
                 {| tx_to := contract;
                    tx_call := StargateBridgeHelper.swap_call self min_amount;
                    tx_params :=
                      StargateBridgeHelper.swap_params (me_of self) fee gas gp nonce |};
               signer := key_of self |}).
  { apply List.in_app_or in Hin as [Hin | Hin].
    - apply in_transactions in Hin; [|reflexivity].
      apply estimate_fee_events in Hfee as [Hfee _]. rewrite Hfee in Hin. destruct Hin.
    - cbn in Hin. intuition congruence. }
  subst raw. cbn [signed tx_params]. unfold StargateBridgeHelper.swap_params.
  split; [apply lookup_insert_eq|]. split.
  - intros k v Hk Hv. rewrite lookup_insert_ne by congruence.
    now apply lookup_union_Some_l.
  - intros k Hk Hnone. rewrite lookup_insert_ne by congruence.
    rewrite lookup_union_r by exact Hnone.
    destruct (String.eqb_spec k "from") as [->|Hfrom].
    { rewrite lookup_insert_ne by discriminate. rewrite lookup_insert_ne by discriminate.
      apply lookup_insert_eq. }
    destruct (String.eqb_spec k "value") as [->|Hvalue].
    { rewrite lookup_insert_ne by discriminate. apply lookup_insert_eq. }
    destruct (String.eqb_spec k "gas") as [->|Hgask].
    { apply lookup_insert_eq. }
    rewrite !lookup_insert_ne by congruence. apply lookup_empty.
Qed.

(** With a slippage for which [amount - int(amount * slippage)] raises, the
    swap submission raises before its first log line and submits nothing. *)
Lemma send_swap_bad_slippage self c e r c' evs :
  StargateBridgeHelper.amount_with_slippage (StargateBridgeHelper.amount self)
    (StargateBridgeHelper.slippage self) = inl e ->
  StargateBridgeHelper._send_swap_transaction K W3 self c = (r, c', evs) ->
  (exists e', r = inl e') /\ transactions evs = [] /\ List.filter is_log evs = [].
Proof.
  intros Hbad. unfold StargateBridgeHelper._send_swap_transaction. rewrite Hbad.
  unfold mbind, M_bind, bind at 1 2. unfold lift at 1. intros H.
  destruct (Web3.to_checksum_address W3 _) as [e0|contract]; [simplify_eq; cbn; eauto|].
  destruct (StargateUtils.estimate_layerzero_swap_fee _ _ _ _ _) as [[[e0|fee] c1] ev1] eqn:Hf;
    apply estimate_fee_events in Hf as [Hf Hl].
  all: unfold transactions in *.
  { simplify_eq. cbn. rewrite Hf, Hl. eauto. }
  run_monad.
  repeat case_match; simplify_eq; cbn;
    rewrite ?List.filter_app, ?Hf, ?Hl; cbn; eauto.
Qed.

(** X8: the minimum amount is computed after the fee quote and the reads
    of the nonce and of the gas parameters, and before anything is logged
    or submitted: when [amount - int(amount * slippage)] raises, the swap
    submission raises, with that exception once the three reads returned,
    and no transaction is submitted and no line logged. *)
Theorem swap_stops_at_bad_slippage self c e r c' evs :
  StargateBridgeHelper.amount_with_slippage (StargateBridgeHelper.amount self)
    (StargateBridgeHelper.slippage self) = inl e ->
  StargateBridgeHelper._send_swap_transaction K W3 self c = (r, c', evs) ->
  (exists e', r = inl e') /\
  transactions evs = [] /\
  List.filter is_log evs = [] /\
  (forall contract layerzero_fee c1 ev1 nonce c2 gas_params c3,
      Web3.to_checksum_address W3 (router_of self) = inr contract ->
      StargateUtils.estimate_layerzero_swap_fee W3 (src_of self) (dst_of self) (me_of self) c
        = (inr layerzero_fee, c1, ev1) ->
      EVMNetwork.get_nonce (src_of self) (me_of self) c1 = (inr nonce, c2) ->
      EVMNetwork.get_transaction_gas_params (src_of self) c2 = (inr gas_params, c3) ->
      r = inl e /\ c' = c3 /\
      evs = ev1 ++ [EvGetNonce (me_of self); EvGetTransactionGasParams]).
Proof.
  intros Hbad H.
  destruct (send_swap_bad_slippage _ _ _ _ _ _ Hbad H) as (Hr & Ht & Hl).
  split; [exact Hr|]. split; [exact Ht|]. split; [exact Hl|].
  intros contract fee c1 ev1 nonce c2 gp c3 Hc Hfee Hnonce Hgp.
  unfold StargateBridgeHelper._send_swap_transaction in H.
  rewrite Hbad, Hc in H.
  rewrite (run_bind_inr (lift (inr contract)) _ c contract c [] eq_refl) in H.
  rewrite (run_bind_inr _ _ _ _ _ _ Hfee) in H.
  rewrite (run_bind_inr _ _ _ _ _ _ (run_call_inr _ _ _ _ _ Hnonce)) in H.
  rewrite (run_bind_inr _ _ _ _ _ _ (run_call_inr _ _ _ _ _ Hgp)) in H.
  rewrite (run_bind_inl (lift (inl e)) _ c3 e c3 [] eq_refl) in H.
  cbn in H. simplify_eq. auto.
Qed.

(** X9: with such a slippage [make_bridge] never completes and never
    submits a swap, whatever the network answers; the slippage is not
    looked at before the approval step, which runs as for any other
    request. *)
Theorem bridge_with_bad_slippage self c e r c' evs :
  StargateBridgeHelper.amount_with_slippage (StargateBridgeHelper.amount self)
    (StargateBridgeHelper.slippage self) = inl e ->
  StargateBridgeHelper.make_bridge K W3 self c = (r, c', evs) ->
  r <> inr None /\
  (forall raw, ~ List.In (EvSendRawTransaction raw) evs) /\
  (forall c1 ev1 c2 ev2,
      StargateBridgeHelper._is_bridge_possible K W3 self c = (inr true, c1, ev1) ->
      StargateBridgeHelper._approve_stablecoin_usage self (StargateBridgeHelper.amount self) c1
        = (inr tt, c2, ev2) ->
      exists e' ev3, r = inl e' /\ evs = ev1 ++ ev2 ++ ev3 /\
                     transactions evs = transactions ev2).
Proof.
  intros Hbad. rewrite make_bridge_run.
  destruct (StargateBridgeHelper._is_bridge_possible K W3 self c)
    as [[[e1|[|]] c1] ev1] eqn:H1;
    pose proof (is_bridge_possible_events _ _ _ _ _ _ _ H1) as Hno1.
  1, 3: intros [= <- <- <-]; (split; [discriminate|]); split;
    [intros raw Hin; apply in_transactions in Hin; [|reflexivity];
     rewrite Hno1 in Hin; destruct Hin | intros; congruence].
  destruct (StargateBridgeHelper._approve_stablecoin_usage self _ c1)
    as [[[e2|[]] c2] ev2] eqn:H2;
    destruct (approve_transactions _ _ _ _ _ _ H2) as [Hta _].
  { intros [= <- <- <-]. split; [discriminate|]. split; [|intros; congruence].
    intros raw Hin. apply in_transactions in Hin; [|reflexivity].
    rewrite transactions_app, Hno1 in Hin.
    destruct Hta as [Hta|Hta]; rewrite Hta in Hin; cbn in Hin; intuition discriminate. }
  destruct (StargateBridgeHelper._send_swap_transaction K W3 self c2)
    as [[r3 c3] ev3] eqn:H3.
  destruct (send_swap_bad_slippage _ _ _ _ _ _ Hbad H3) as ([e3 ->] & Hts & _).
  intros [= <- <- <-]. split; [discriminate|]. split.
  - intros raw Hin. apply in_transactions in Hin; [|reflexivity].
    rewrite !transactions_app, Hno1, Hts in Hin.
    destruct Hta as [Hta|Hta]; rewrite Hta in Hin; cbn in Hin; intuition discriminate.
  - intros c1' ev1' c2' ev2' Ha Hb. simplify_eq. rewrite H2 in Hb. simplify_eq.
    exists e3, ev3.
    split; [reflexivity|]. split; [reflexivity|].
    rewrite !transactions_app, Hno1, Hts. cbn. now rewrite app_nil_r.
Qed.




Lemma estimate_gas_logs (network : EVMNetwork.t chain) c r c' evs :
  StargateUtils.estimate_swap_gas_price K network c = (r, c', evs) ->
  List.filter is_log evs = [].
Proof.
  unfold StargateUtils.estimate_swap_gas_price. run_monad.
  intros H. repeat case_match; simplify_eq; auto.
Qed.

(** The feasibility check logs nothing, whatever its outcome. *)
Lemma is_bridge_possible_logs self c r c' evs :
  StargateBridgeHelper._is_bridge_possible K W3 self c = (r, c', evs) ->
  List.filter is_log evs = [].
Proof.
  unfold StargateBridgeHelper._is_bridge_possible.
  unfold StargateUtils.is_enough_native_token_balance_for_stargate_swap_fee.
  unfold mbind, M_bind, bind at 1 2 3 4. unfold call at 1. intros H.
  destruct (EVMNetwork.get_balance _ _ c) as [[e|bal] c1]; [now simplify_eq|].
  destruct (StargateUtils.estimate_swap_gas_price K _ c1) as [[[e|g] c2] ev2] eqn:Hg;
    apply estimate_gas_logs in Hg; [simplify_eq; cbn; exact Hg|].
  destruct (StargateUtils.estimate_layerzero_swap_fee W3 _ _ _ c2)
    as [[[e|f] c3] ev3] eqn:Hf;
    apply estimate_fee_events in Hf as [_ Hf].
  { simplify_eq. cbn. now rewrite List.filter_app, Hg, Hf. }
  run_monad.
  repeat case_match; simplify_eq; cbn;
    rewrite ?List.filter_app, ?Hg, ?Hf; reflexivity.
Qed.

(** X11: a bridge that is rejected leaves no trace: [make_bridge] returns
    False without a log line, as it does without a transaction. *)
Theorem rejected_bridge_is_silent self c c' evs :
  StargateBridgeHelper.make_bridge K W3 self c = (inr (Some false), c', evs) ->
  List.filter is_log evs = [] /\ transactions evs = [].
Proof.
  intros H. apply make_bridge_inv in H as [[_ H] | [H _]]; [|discriminate].
  split.
  - eapply is_bridge_possible_logs, H.
  - eapply is_bridge_possible_events, H.
Qed.
End Outcomes.

(** *** On the mock network *)

(** X1 on the mock network: the quote answers 5 and a second field that is
    dropped. *)
Lemma fee_estimate_outcome_witness :
  exists evs,
    StargateUtils.estimate_layerzero_swap_fee Mock.web3 Mock.src Mock.dst "0xA11ce"
      (Mock.world TransactionStatus.SUCCESS)
      = (inr 5, Mock.world TransactionStatus.SUCCESS, evs) /\
    (length evs <= 1)%nat /\ transactions evs = [] /\ List.filter is_log evs = [].
Proof.
  eexists. split; [reflexivity|].
  destruct (fee_estimate_outcome Mock.web3 Mock.src Mock.dst "0xA11ce"
              (Mock.world TransactionStatus.SUCCESS) _ _ _ eq_refl)
    as (Hlen & Htx & Hlog & _).
  exact (conj Hlen (conj Htx Hlog)).
Defined.

(** X2 with a node that does not answer. *)
Lemma make_bridge_raises_with_feasibility_witness :
  StargateBridgeHelper.make_bridge Mock.constants Mock.web3 (Mock.helper 50)
    (Mock.offline (Mock.world TransactionStatus.SUCCESS))
    = (inl Mock.ConnectionError, Mock.offline (Mock.world TransactionStatus.SUCCESS),
       [EvGetBalance "0xA11ce"]) /\
  transactions [EvGetBalance "0xA11ce"] = [].
Proof.
  apply (make_bridge_raises_with_feasibility Mock.constants Mock.web3 (Mock.helper 50)).
  left. reflexivity.
Defined.

(** X3 with no allowance and an approval that fails. *)
Lemma make_bridge_stops_at_failed_approval_witness :
  exists c2 evs,
    StargateBridgeHelper.make_bridge Mock.constants Mock.web3 (Mock.helper 50)
      (Mock.with_allowance 0 (Mock.world TransactionStatus.FAILED))
      = (inl (TransactionFailed "Approve USDC usage transaction failed"), c2, evs) /\
    (forall raw, ~ List.In (EvSendRawTransaction raw) evs).
Proof.
  eexists _, _.
  eapply (make_bridge_stops_at_failed_approval Mock.constants Mock.web3 (Mock.helper 50)
            (Mock.with_allowance 0 (Mock.world TransactionStatus.FAILED)));
    reflexivity.
Defined.

(** X4 with no allowance: the approval, then the swap. *)
Lemma make_bridge_transactions_in_order_witness :
  exists c' evs,
    StargateBridgeHelper.make_bridge Mock.constants Mock.web3 (Mock.helper 50)
      (Mock.with_allowance 0 (Mock.world TransactionStatus.SUCCESS)) = (inr None, c', evs) /\
    exists approvals swaps,
      transactions evs = approvals ++ swaps /\
      (approvals = [] \/
       approvals = [EvApproveTokenUsage [Byte.x2a] "0xUSDC" "0xRouter" 50]) /\
      (swaps = [] \/
       exists raw, swaps = [EvSendRawTransaction raw] /\
                   signer raw = [Byte.x2a] /\ fn_name (tx_call (signed raw)) = "swap").
Proof.
  eexists _, _. split; [reflexivity|].
  eapply (make_bridge_transactions_in_order Mock.constants Mock.web3 (Mock.helper 50)
            (Mock.with_allowance 0 (Mock.world TransactionStatus.SUCCESS))).
  reflexivity.
Defined.

(** X5 with no allowance: the approval of 50, then the swap. *)
Lemma completed_bridge_transactions_witness :
  exists c' evs,
    StargateBridgeHelper.make_bridge Mock.constants Mock.web3 (Mock.helper 50)
      (Mock.with_allowance 0 (Mock.world TransactionStatus.SUCCESS)) = (inr None, c', evs) /\
    exists raw,
      transactions evs =
        [EvApproveTokenUsage [Byte.x2a] "0xUSDC" "0xRouter" 50; EvSendRawTransaction raw].
Proof.
  eexists _, _. split; [reflexivity|].
  destruct (completed_bridge_transactions Mock.constants Mock.web3 (Mock.helper 50)
              (Mock.with_allowance 0 (Mock.world TransactionStatus.SUCCESS)) _ _ eq_refl)
    as (c1 & ev1 & allowance & c1' & raw & H1 & Hal & Htx & _).
  exists raw. vm_compute in H1. injection H1 as <- <-.
  vm_compute in Hal. injection Hal as <- _. exact Htx.
Defined.

(** X6 at the boundary: a stablecoin balance of 50 for an amount of 50
    passes. *)
Lemma bridge_possible_decides_witness :
  exists c' evs,
    StargateBridgeHelper._is_bridge_possible Mock.constants Mock.web3 (Mock.helper 50)
      (Mock.world TransactionStatus.SUCCESS) = (inr true, c', evs) /\
    exists balance gas_cost relay_fee stablecoin_balance,
      gas_cost + relay_fee < balance /\ true = (50 <=? stablecoin_balance).
Proof.
  eexists _, _. split; [reflexivity|].
  destruct (bridge_possible_decides Mock.constants Mock.web3 (Mock.helper 50)
              (Mock.world TransactionStatus.SUCCESS) _ _ _ eq_refl)
    as (balance & c1 & gas_cost & c2 & ev2 & relay_fee & c3 & ev3 & _ & _ & _ &
        [(_ & Hb & _) | (Hlt & sb & _ & Hb & _)]); [discriminate Hb|].
  exists balance, gas_cost, relay_fee, sb. exact (conj Hlt Hb).
Defined.

(** X7 on the mock network: the nonce is 0 and the gas price of the gas
    parameters is in the transaction. *)
Lemma swap_transaction_dictionary_witness :
  exists raw,
    List.In (EvSendRawTransaction raw)
      (StargateBridgeHelper._send_swap_transaction Mock.constants Mock.web3 (Mock.helper 50)
         (Mock.world TransactionStatus.SUCCESS)).2 /\
    tx_params (signed raw) !! "nonce" = Some (PInt 0) /\
    tx_params (signed raw) !! "gasPrice" = Some (PInt 1).
Proof.
  eexists. split.
  { do 5 right. left. reflexivity. }
  destruct (swap_transaction_dictionary Mock.constants Mock.web3 (Mock.helper 50)
              (Mock.world TransactionStatus.SUCCESS) _ _ _ _ eq_refl
              (or_intror (or_intror (or_intror (or_intror (or_intror (or_introl eq_refl)))))))
    as (fee & c1 & ev1 & nonce & c2 & gp & c3 & gas & c4 &
        Hfee & Hnonce & Hgp & _ & Hn & Hover & _).
  vm_compute in Hfee. injection Hfee as <- <- <-.
  vm_compute in Hnonce. injection Hnonce as <- <-.
  injection Hgp as <- _.
  split; [exact Hn|]. apply Hover; [discriminate | reflexivity].
Defined.

(** X8 with a slippage that is not a number. *)
Lemma swap_stops_at_bad_slippage_witness :
  exists evs,
    StargateBridgeHelper._send_swap_transaction Mock.constants Mock.web3
      (Mock.helper_with_slippage 50 S754_nan) (Mock.world TransactionStatus.SUCCESS)
      = (inl ValueError, Mock.world TransactionStatus.SUCCESS, evs) /\
    transactions evs = [] /\ List.filter is_log evs = [].
Proof.
  eexists. split; [reflexivity|].
  destruct (swap_stops_at_bad_slippage Mock.constants Mock.web3
              (Mock.helper_with_slippage 50 S754_nan)
              (Mock.world TransactionStatus.SUCCESS) ValueError _ _ _ eq_refl eq_refl)
    as (_ & Htx & Hlog & _).
  exact (conj Htx Hlog).
Defined.

(** X9 with a slippage that is not a number and no allowance: the approval
    is submitted, then [ValueError] is raised. *)
Lemma bridge_with_bad_slippage_witness :
  exists c' evs,
    StargateBridgeHelper.make_bridge Mock.constants Mock.web3
      (Mock.helper_with_slippage 50 S754_nan)
      (Mock.with_allowance 0 (Mock.world TransactionStatus.SUCCESS))
      = (inl ValueError, c', evs) /\
    transactions evs = [EvApproveTokenUsage [Byte.x2a] "0xUSDC" "0xRouter" 50] /\
    (forall raw, ~ List.In (EvSendRawTransaction raw) evs).
Proof.
  eexists _, _. split; [reflexivity|]. split; [reflexivity|].
  apply (bridge_with_bad_slippage Mock.constants Mock.web3
           (Mock.helper_with_slippage 50 S754_nan)
           (Mock.with_allowance 0 (Mock.world TransactionStatus.SUCCESS))
           ValueError _ _ _ eq_refl eq_refl).
Defined.


(** X11 with a stablecoin balance of 49 for an amount of 50. *)
Lemma rejected_bridge_is_silent_witness :
  exists c' evs,
    StargateBridgeHelper.make_bridge Mock.constants Mock.web3 (Mock.helper 50)
      (Mock.with_stable_balance 49 (Mock.world TransactionStatus.SUCCESS))
      = (inr (Some false), c', evs) /\
    List.filter is_log evs = [] /\ transactions evs = [].
Proof.
  eexists _, _. split; [reflexivity|].
  apply (rejected_bridge_is_silent Mock.constants Mock.web3 (Mock.helper 50)
           (Mock.with_stable_balance 49 (Mock.world TransactionStatus.SUCCESS)) _ _ eq_refl).
Defined.

(** ** The minimum amount outside the slippages of the specification *)

Lemma binary_round_aux_opp (s : bool) (m e : Z) (l : location) :
  binary_round_aux 53 1024 (negb s) m e l = SFopp (binary_round_aux 53 1024 s m e l).
Proof.
  unfold binary_round_aux.
  destruct (shr_fexp 53 1024 m e l) as [mrs' e'].
  destruct (shr_fexp 53 1024 _ e' loc_Exact) as [mrs'' e''].
  destruct (shr_m mrs''); try reflexivity.
  destruct (e'' <=? 1024 - 53); reflexivity.
Qed.

Lemma mul_opp_r (x y : spec_float) : PyFloat.mul x (SFopp y) = SFopp (PyFloat.mul x y).
Proof.
  unfold PyFloat.mul, PyFloat.prec, PyFloat.emax.
  destruct x as [sx|sx| |sx mx ex], y as [sy|sy| |sy my ey]; cbn [SFmul SFopp];
    rewrite <- ?negb_xorb_r; try reflexivity.
  apply binary_round_aux_opp.
Qed.

Lemma to_int_opp (x : spec_float) :
  PyFloat.to_int (SFopp x) =
    match PyFloat.to_int x with inl e => inl e | inr z => inr (- z) end.
Proof.
  destruct x as [s|s| |[|] m e]; cbn [PyFloat.to_int SFopp negb cond_Zopp];
    rewrite ?Z.opp_involutive; reflexivity.
Qed.

(** X12: negating the slippage mirrors the minimum amount around the
    amount: where [amount - int(amount * s)] is r, it is 2 * amount - r at
    the slippage -s, and where one raises the other raises the same
    exception.  Nothing in the computation keeps the minimum amount at or
    below the amount when the slippage is negative. *)
Theorem amount_with_slippage_mirrors_sign (a : Z) (s : spec_float) :
  StargateBridgeHelper.amount_with_slippage a (SFopp s) =
    match StargateBridgeHelper.amount_with_slippage a s with
    | inl e => inl e
    | inr r => inr (2 * a - r)
    end.
Proof.
  unfold StargateBridgeHelper.amount_with_slippage, PyFloat.int_mul.
  destruct (PyFloat.of_int a) as [e|x]; [reflexivity|].
  rewrite mul_opp_r, to_int_opp.
  destruct (PyFloat.to_int (PyFloat.mul x s)) as [e|cut]; [reflexivity|].
  f_equal. lia.
Qed.

(** The product of a float of at most 53 bits by 1.0 has its integer part. *)
Lemma mul_one_to_int (M : positive) (E : Z) :
  Z.pos M < 9007199254740992 -> -52 <= E <= 971 ->
  PyFloat.to_int (PyFloat.mul (S754_finite false M E) PyFloat.one) = inr (Z.shiftl (Z.pos M) E).
Proof.
  intros HM HE.
  unfold PyFloat.mul, PyFloat.one, PyFloat.prec, PyFloat.emax, SFmul. cbn [xorb].
  destruct (binary_round_aux_spec (M * 4503599627370496) (E + -52))
    as (q' & Hrange & Hdown & Hq53 & _ & Hres).
  assert (Hmz : Z.pos (M * 4503599627370496) = Z.pos M * 2 ^ 52) by reflexivity.
  pose proof (digits2_pos_shift M (M * 4503599627370496) 52 ltac:(lia) Hmz) as Hdz.
  destruct (digits2_pos_bounds M) as [Hdlo Hdhi].
  assert (Hd53 : Z.pos (digits2_pos M) <= 53) by (apply digits2_pos_le; [lia | exact HM]).
  set (d := Z.pos (digits2_pos M)) in *.
  assert (Hd1 : 1 <= d) by (unfold d; lia). clearbody d.
  rewrite Hdz, fexp_eq in Hrange, Hdown, Hq53, Hres.
  replace (Z.max (Z.max (d + 52 + (E + -52) - 53) (-1074)) (E + -52)) with (d + E - 53)
    in Hrange, Hdown, Hq53, Hres by lia.
  replace (d + E - 53 - (E + -52)) with (d - 1) in Hrange, Hdown, Hq53 by lia.
  rewrite Hmz in Hrange, Hdown, Hq53.
  assert (Hsplit : Z.pos M * 2 ^ 52 = Z.pos M * 2 ^ (53 - d) * 2 ^ (d - 1)).
  { rewrite <- Z.mul_assoc, <- Z.pow_add_r by lia. do 2 f_equal. lia. }
  assert (Hp : 0 < 2 ^ (d - 1)) by (apply Z.pow_pos_nonneg; lia).
  rewrite Hsplit in Hrange, Hdown, Hq53.
  rewrite Z.div_mul in Hrange, Hdown, Hq53 by lia.
  rewrite Z.mod_mul in Hdown by lia.
  assert (Hq : q' = Z.pos M * 2 ^ (53 - d)) by (apply Hdown; lia).
  clear Hdown Hrange Hsplit Hdz Hmz.
  rewrite Hres. clear Hres.
  rewrite rounded_to_int; [|subst q'; lia | lia | lia].
  f_equal. subst q'.
  rewrite <- (Z.shiftl_mul_pow2 (Z.pos M) (53 - d)) by lia.
  rewrite Z.shiftl_shiftl by lia. f_equal. lia.
Qed.

(** X13: at the slippage 1.0 the minimum amount is 0 for every amount
    below 2^53: the swap accepts any quantity on the destination. *)
Theorem amount_with_slippage_one (a : Z) :
  0 < a -> a < 2 ^ 53 ->
  StargateBridgeHelper.amount_with_slippage a PyFloat.one = inr 0.
Proof.
  intros Ha0 Ha53. destruct a as [|a|a]; try lia.
  change (2 ^ 53) with 9007199254740992 in Ha53.
  assert (Hmax : Z.pos a < 2 ^ 1024 - 2 ^ 970).
  { assert (H970 : 0 < 2 ^ 970) by (apply Z.pow_pos_nonneg; lia).
    assert (H1024 : 2 ^ 1024 = 2 ^ 54 * 2 ^ 970) by (apply (Z.pow_add_r 2 54 970); lia).
    change (2 ^ 54) with 18014398509481984 in H1024. lia. }
  destruct (of_int_total a Hmax) as [x Hx].
  destruct (of_int_cases a x Hx) as (M & E & -> & HM & HE & _ & Hsmall).
  destruct (Hsmall Ha53) as (k & Hk & HMa & HEk).
  unfold StargateBridgeHelper.amount_with_slippage, PyFloat.int_mul.
  rewrite Hx, (mul_one_to_int M E HM HE). f_equal.
  rewrite HMa, HEk, <- (Z.shiftl_mul_pow2 (Z.pos a) k), Z.shiftl_shiftl by lia.
  replace (k + - k) with 0 by lia. rewrite Z.shiftl_0_r. lia.
Qed.

Lemma amount_with_slippage_one_witness :
  StargateBridgeHelper.amount_with_slippage 50 PyFloat.one = inr 0.
Proof. apply (amount_with_slippage_one 50); [lia | reflexivity]. Defined.

(** X14: for an amount that converts to a float, a slippage that is not a
    number makes [int] raise [ValueError], and an infinite slippage makes
    it raise [OverflowError]. *)
Theorem amount_with_slippage_not_finite (a : Z) :
  0 < a -> a < 2 ^ 1024 - 2 ^ 970 ->
  StargateBridgeHelper.amount_with_slippage a S754_nan = inl ValueError /\
  (forall b, StargateBridgeHelper.amount_with_slippage a (S754_infinity b)
             = inl OverflowError).
Proof.
  intros Ha0 Hmax. destruct a as [|a|a]; try lia.
  destruct (of_int_total a Hmax) as [x Hx].
  destruct (of_int_cases a x Hx) as (M & E & -> & _).
  unfold StargateBridgeHelper.amount_with_slippage, PyFloat.int_mul.
  rewrite Hx. split; [reflexivity|]. intros b. reflexivity.
Qed.

Lemma amount_with_slippage_not_finite_witness :
  StargateBridgeHelper.amount_with_slippage 50 S754_nan = inl ValueError /\
  (forall b, StargateBridgeHelper.amount_with_slippage 50 (S754_infinity b)
             = inl OverflowError).
Proof.
  apply (amount_with_slippage_not_finite 50); [lia|].
  apply Z.lt_trans with (2 ^ 6); [reflexivity|].
  apply Z.lt_le_trans with (2 ^ 970); [apply Z.pow_lt_mono_r; lia|].
  assert (2 ^ 1024 = 2 ^ 54 * 2 ^ 970) by (apply (Z.pow_add_r 2 54 970); lia).
  assert (0 < 2 ^ 970) by (apply Z.pow_pos_nonneg; lia).
  change (2 ^ 54) with 18014398509481984 in *. lia.
Defined.

(** X15: an amount of 2^1024 or more does not convert to a float: the
    computation raises [OverflowError] whatever the slippage, a zero
    included. *)
Theorem amount_with_slippage_overflows (a : Z) (s : spec_float) :
  2 ^ 1024 <= a ->
  StargateBridgeHelper.amount_with_slippage a s = inl OverflowError.
Proof.
  intros Ha.
  assert (H0 : 0 < 2 ^ 1024) by (apply Z.pow_pos_nonneg; lia).
  destruct a as [|a|a]; try lia.
  destruct (of_int_round a) as (q' & Hrange & _ & Hq & _ & Hres).
  pose proof (digits2_pos_gt a 1024 Ha) as Hd.
  set (d := Z.pos (digits2_pos a)) in *. clearbody d.
  unfold StargateBridgeHelper.amount_with_slippage, PyFloat.int_mul, PyFloat.of_int,
    PyFloat.prec, PyFloat.emax.
  rewrite Hres. clear Hres.
  destruct q' as [|p|p]; [lia| |lia].
  replace (d - 53 + 1 <=? 971) with false by lia.
  replace (d - 53 <=? 971) with false by lia.
  destruct (p =? 9007199254740992)%positive; reflexivity.
Qed.

Lemma amount_with_slippage_overflows_witness :
  StargateBridgeHelper.amount_with_slippage (2 ^ 1024) PyFloat.zero = inl OverflowError.
Proof. apply (amount_with_slippage_overflows (2 ^ 1024) PyFloat.zero). apply Z.le_refl. Defined.
